(** * Driving Time Radius Calculator

    A shallow embedding of [DrivingTimeRadiusCalculator]
    (drivingTimeRadiusCalculator.py) and the properties of its geocoding,
    batching, filtering, rendering and export steps.

    Conventions of the embedding:
    - Numbers (the driving times, the time threshold, coordinates) are
      exact rationals [Q], compared exactly.  The arithmetic of
      [get_color_for_time] yields a [float64]: a rational, an infinity or
      NaN, with the division by the numpy scalar zero and [int] on an
      infinity or NaN as numpy and Python have them.  The rounding of a
      result to binary64 is not represented, so the digits of a colour are
      stated only where binary64 computes them exactly.
    - A provider response is a record holding the fields the code
      subscripts without a test; the [KeyError] of a response that lacks one
      of them is outside the embedding.
    - [DataFrame] objects live in a store addressed by references, so that
      "returns a new frame" and "mutates its argument" are different things.
    - The file system, the console and the fields of [self] are part of the
      state threaded through every method; an exception leaves the state as
      it was when it was raised.
    - The two HTTP services are functions supplied from outside, and so is
      the reader of the dataset file.
    - A thread of the form is run to its end at the point where it is
      started; an exception that escapes its target ends the thread. *)

From Stdlib Require Import QArith Qround ZArith Lia List String Ascii.
From Stdlib Require Import HexString DecimalString Sorted.
From stdpp Require Import gmap strings list fin_maps.

Local Open Scope string_scope.
Local Open Scope list_scope.
Local Close Scope Q_scope.

(** ** Python outcomes and the state monad *)

Inductive exn : Type :=
| ZeroDivisionError
| IndexError
| KeyError
| TypeError
| AttributeError
| ValueError
| OverflowError
| InvalidReference. (* a reference that was never allocated; not reachable
                       from Python code, needed to keep lookups total *)

Inductive outcome (A : Type) : Type :=
| Return (a : A)
| Raise (e : exn).
Arguments Return {A} a.
Arguments Raise {A} e.

(** ** Data model *)

(** A coordinate pair (latitude, longitude). *)
Definition Coords : Type := Q * Q.

(** A shapely point: [x] is the longitude, [y] the latitude. *)
Record ShapelyPoint : Type := { x : Q; y : Q }.

(** A boundary polygon together with the centroid shapely derives from it. *)
Record Geometry : Type := {
  boundary : list ShapelyPoint;
  centroid : ShapelyPoint
}.

(** One row of [zip_gdf]. *)
Record AreaRecord : Type := {
  ZCTA5 : string;
  area_geometry : Geometry
}.

(** One travel result: the dictionary appended to [results] in
    [calculate_driving_times], and one row of the frames handled by
    [filter_results], [create_map] and [export_results]. *)
Record TravelResult : Type := {
  zip_code : string;
  state : string;
  driving_time_minutes : Q;
  geometry : Geometry
}.

Definition DataFrame : Type := list TravelResult.

(** A table with named columns, as left after [drop(columns=...)]. *)
Inductive Cell : Type :=
| CStr (s : string)
| CNum (q : Q)
| CGeom (g : Geometry).

Record Table : Type := {
  columns : list string;
  rows : list (list Cell)
}.

(** The folium map under construction. *)
Record Marker : Type := {
  marker_location : Coords;
  marker_popup : string;
  marker_icon : string * string   (* color, icon *)
}.

Record GeoJson : Type := {
  gj_geometry : Geometry;
  gj_fillColor : string;
  gj_color : string;
  gj_weight : Z;
  gj_fillOpacity : Q;
  gj_tooltip : string * Q  (* the zip code and the time shown in the tooltip *)
}.

Record FoliumMap : Type := {
  map_location : Coords;
  zoom_start : Z;
  markers : list Marker;
  overlays : list GeoJson
}.

Inductive FileContent : Type :=
| HtmlMap (m : FoliumMap)
| CsvFile (t : Table).

(** References to [DataFrame] objects, and Python values that are either
    [None] or such a reference. *)
Definition ref : Type := positive.

Inductive value : Type :=
| VNone
| VRef (l : ref).

(** The fields of [self]. *)
Record Calculator : Type := {
  api_key : option string;
  zip_gdf : option (list AreaRecord);
  calc_results : value;
  origin_address : option string;
  max_driving_time : option Q;
  respect_state_lines : option bool;
  origin_state : option string
}.

Definition init : Calculator :=
  {| api_key := None; zip_gdf := None; calc_results := VNone;
     origin_address := None; max_driving_time := None;
     respect_state_lines := None; origin_state := None |}.

Record World : Type := {
  frames : gmap ref DataFrame;
  files : gmap string FileContent;
  console : list string;
  self : Calculator
}.

Definition Py (A : Type) : Type := World -> outcome A * World.

Definition raise {A} (e : exn) : Py A := fun w => (Raise e, w).

#[global] Instance py_ret : MRet Py := fun A a w => (Return a, w).
#[global] Instance py_bind : MBind Py := fun A B k c w =>
  match c w with
  | (Return a, w') => k a w'
  | (Raise e, w') => (Raise e, w')
  end.

Definition lift {A} (o : outcome A) : Py A := fun w => (o, w).

(** The world after one more line on the console. *)
Definition printed (line : string) (w : World) : World :=
  {| frames := frames w; files := files w;
     console := console w ++ [line]; self := self w |}.

Definition print (line : string) : Py unit :=
  fun w => (Return tt, printed line w).

Definition write_file (name : string) (c : FileContent) : Py unit :=
  fun w => (Return tt,
            {| frames := frames w; files := <[name := c]> (files w);
               console := console w; self := self w |}).

Definition get_self : Py Calculator := fun w => (Return (self w), w).

Definition set_self (c : Calculator) : Py unit :=
  fun w => (Return tt,
            {| frames := frames w; files := files w;
               console := console w; self := c |}).

(** The world after allocating [df], at a reference not in use. *)
Definition allocated (df : DataFrame) (w : World) : World :=
  {| frames := <[fresh (dom (frames w)) := df]> (frames w);
     files := files w; console := console w; self := self w |}.

(** Allocation of a new frame object. *)
Definition alloc (df : DataFrame) : Py value :=
  fun w => (Return (VRef (fresh (dom (frames w)))), allocated df w).

(** Reading the frame a value denotes; [None] is not a frame. *)
Definition deref (v : value) : Py DataFrame :=
  fun w => match v with
           | VNone => (Raise TypeError, w)
           | VRef l => match frames w !! l with
                       | Some df => (Return df, w)
                       | None => (Raise InvalidReference, w)
                       end
           end.

(** ** ResultFilter *)

(** [df[mask]]: a new frame holding the rows whose mask entry is true, in
    their order. *)
Definition getitem_mask (v : value) (mask : TravelResult -> bool) : Py value :=
  df ← deref v;
  alloc (List.filter mask df).

(** [column == origin_state]; [origin_state] is [None] when the geocoder
    found no state, and then no row compares equal. *)
Definition state_eqb (s : string) (origin : option string) : bool :=
  match origin with
  | Some o => String.eqb s o
  | None => false
  end.

Definition filter_results (driving_results : value) (max_time : Q)
    (respect_state_lines : bool) (origin_state : option string) : Py value :=
  filtered ← getitem_mask driving_results
               (fun r => Qle_bool (driving_time_minutes r) max_time);
  if respect_state_lines
  then getitem_mask filtered (fun r => state_eqb (state r) origin_state)
  else mret filtered.

(** ** MapRenderer *)

#[global] Instance outcome_ret : MRet outcome := fun A a => Return a.
#[global] Instance outcome_bind : MBind outcome := fun A B k o =>
  match o with
  | Return a => k a
  | Raise e => Raise e
  end.

(** A binary64 value: a number, an infinity or NaN. *)
Inductive float64 : Type :=
| Finite (q : Q)
| Infinity (negative : bool)
| NaN.

(** [a / b] where the divisor is a numpy scalar, as [max_time] is at the
    one call of [get_color_for_time] (line 175, from the [max()] of line
    171): a zero divisor raises nothing, the quotient is NaN for [0 / 0] and
    an infinity of the sign of [a] otherwise. *)
Definition truediv (a b : Q) : float64 :=
  if Qeq_bool b 0
  then if Qeq_bool a 0 then NaN else Infinity (Qle_bool a 0)
  else Finite (a / b)%Q.

(** [c * x] and [c - x] for a number [c]. *)
Definition fmul (c : Q) (x : float64) : float64 :=
  match x with
  | Finite q => Finite (c * q)%Q
  | Infinity negative =>
      if Qeq_bool c 0 then NaN else Infinity (xorb (Qle_bool c 0) negative)
  | NaN => NaN
  end.

Definition fsub (c : Q) (x : float64) : float64 :=
  match x with
  | Finite q => Finite (c - q)%Q
  | Infinity negative => Infinity (negb negative)
  | NaN => NaN
  end.

(** Truncation toward zero. *)
Definition truncate (q : Q) : Z := Z.quot (Qnum q) (Zpos (Qden q)).

(** [int(x)]: [OverflowError] on an infinity, [ValueError] on NaN. *)
Definition int (x : float64) : outcome Z :=
  match x with
  | Finite q => Return (truncate q)
  | Infinity _ => Raise OverflowError
  | NaN => Raise ValueError
  end.

Definition hex (n : N) : string :=
  match n with
  | N0 => "0"
  | Npos p => HexString.Raw.of_pos p ""
  end.

Fixpoint zeros (n : nat) : string :=
  match n with
  | O => ""
  | S n' => String "0" (zeros n')
  end.

Definition zfill (width : nat) (s : string) : string :=
  zeros (width - String.length s) +:+ s.

(** The format specification [02x]: lower-case hexadecimal, padded with
    zeros after the sign to a total width of two. *)
Definition format_02x (v : Z) : string :=
  if (v <? 0)%Z
  then "-" +:+ zfill 1 (hex (Z.abs_N v))
  else zfill 2 (hex (Z.abs_N v)).

(** The three channels computed in the body of [get_color_for_time]. *)
Definition color_channels (time max_time : Q) : outcome (Z * Z * Z) :=
  let ratio := truediv time max_time in
  red ← int (fmul 255 ratio);
  let r := Z.min 255 red in
  green ← int (fmul 255 (fsub 1 ratio));
  let g := Z.min 255 green in
  let b := 0%Z in
  mret (r, g, b).

Definition get_color_for_time (time max_time : Q) : outcome string :=
  '(r, g, b) ← color_channels time max_time;
  mret ("#" +:+ format_02x r +:+ format_02x g +:+ format_02x b).

(** [len(v)] *)
Definition len (v : value) : Py nat :=
  df ← deref v;
  mret (length df).

Definition Qmax2 (a b : Q) : Q := if Qle_bool a b then b else a.

(** [column.max()]; asked only of a non-empty column here (pandas answers
    NaN for an empty one, which has no counterpart in [Q]). *)
Definition series_max (column : list Q) : Q :=
  match column with
  | [] => 0%Q
  | q :: rest => fold_left Qmax2 rest q
  end.

Definition add_marker (m : FoliumMap) (k : Marker) : FoliumMap :=
  {| map_location := map_location m; zoom_start := zoom_start m;
     markers := markers m ++ [k]; overlays := overlays m |}.

Definition add_geojson (m : FoliumMap) (g : GeoJson) : FoliumMap :=
  {| map_location := map_location m; zoom_start := zoom_start m;
     markers := markers m; overlays := overlays m ++ [g] |}.

(** The loop [for idx, row in gdf.iterrows()]. *)
Fixpoint add_regions (gdf_rows : list TravelResult) (max_time : Q)
    (m : FoliumMap) : outcome FoliumMap :=
  match gdf_rows with
  | [] => mret m
  | row :: rest =>
      color ← get_color_for_time (driving_time_minutes row) max_time;
      add_regions rest max_time
        (add_geojson m
           {| gj_geometry := geometry row;
              gj_fillColor := color;
              gj_color := "black";
              gj_weight := 1;
              gj_fillOpacity := (6 # 10)%Q;
              gj_tooltip := (zip_code row, driving_time_minutes row) |})
  end.

Definition map_filename : string := "driving_time_radius.html".

Definition create_map (filtered_results : value) (origin_coords : Coords)
  : Py string :=
  let m := {| map_location := origin_coords; zoom_start := 10;
              markers := []; overlays := [] |} in
  let m := add_marker m {| marker_location := origin_coords;
                           marker_popup := "Origin";
                           marker_icon := ("red", "home") |} in
  n ← len filtered_results;
  m ← (if (0 <? n)%nat
       then
         rows_in ← deref filtered_results;
         gdf ← alloc rows_in;
         gdf_rows ← deref gdf;
         let max_time := series_max (map driving_time_minutes gdf_rows) in
         lift (add_regions gdf_rows max_time m)
       else mret m);
  write_file map_filename (HtmlMap m);;
  mret map_filename.

(** ** ResultExporter *)

Definition frame_columns : list string :=
  ["zip_code"; "state"; "driving_time_minutes"; "geometry"].

Definition row_cells (r : TravelResult) : list Cell :=
  [CStr (zip_code r); CStr (state r); CNum (driving_time_minutes r);
   CGeom (geometry r)].

Definition to_table (df : DataFrame) : Table :=
  {| columns := frame_columns; rows := map row_cells df |}.

Fixpoint index_of (c : string) (cols : list string) : option nat :=
  match cols with
  | [] => None
  | c' :: rest => if String.eqb c c' then Some O
                  else S <$> index_of c rest
  end.

Definition remove_nth {A} (i : nat) (l : list A) : list A :=
  take i l ++ drop (S i) l.

(** [t.drop(columns=[c])]: a new table; [KeyError] when [c] is no column. *)
Definition drop_column (t : Table) (c : string) : outcome Table :=
  match index_of c (columns t) with
  | None => Raise KeyError
  | Some i => Return {| columns := remove_nth i (columns t);
                        rows := map (remove_nth i) (rows t) |}
  end.

(** [t.to_csv(filename, index=False)]: the header and one record per row. *)
Definition to_csv (t : Table) (filename : string) : Py unit :=
  write_file filename (CsvFile t).

Definition default_csv : string := "zip_codes_in_range.csv".

Definition export_results (filtered_results : value) (filename : string)
  : Py (option string) :=
  n ← len filtered_results;
  if (0 <? n)%nat
  then
    rows_in ← deref filtered_results;
    export_df ← alloc rows_in;
    copied ← deref export_df;
    export_df ← lift (drop_column (to_table copied) "geometry");
    to_csv export_df filename;;
    mret (Some filename)
  else mret None.

(** ** Provider responses *)

(** The geocoding response: [status], and [results] whose entries carry
    [geometry.location] and [address_components], each component with
    [types] and [short_name].  These are the fields [geocode_address]
    subscripts without a test; what it does with a response that lacks one
    (it raises [KeyError]) is not part of the embedding. *)
Record AddressComponent : Type := {
  types : list string;
  short_name : string
}.

Record GeocodeCandidate : Type := {
  location : Coords;   (* lat, lng *)
  address_components : list AddressComponent
}.

Record GeocodeResponse : Type := {
  geo_status : string;
  geo_results : list GeocodeCandidate
}.

(** The distance-matrix response: [status], and optionally [rows], each
    optionally with [elements], each optionally with a [duration].  The
    keys tested with [in] are optional; [status], the [seconds] of a
    [duration] and the [ZCTA5] of a record are subscripted without a test,
    and what the loop does when one is missing (it raises [KeyError]) is not
    part of the embedding. *)
Record Route : Type := {
  duration : option Q   (* route['duration']['seconds'] when present *)
}.

Record MatrixRow : Type := {
  elements : option (list Route)
}.

Record MatrixResponse : Type := {
  rm_status : string;
  rm_rows : option (list MatrixRow)
}.

(** ** DistanceSampler: the batching of the sample *)

Definition batch_size : nat := 25.

(** [range(start, stop, step)] for a positive step. *)
Definition py_range (start stop step : nat) : list nat :=
  map (fun k => start + k * step) (seq 0 ((stop - start + (step - 1)) / step)).

(** [l.iloc[i:j]] *)
Definition iloc_slice {A} (l : list A) (i j : nat) : list A :=
  take (j - i) (drop i l).

(** The batches the loop of [calculate_driving_times] goes through, in
    order: one per value of [i]. *)
Definition batches {A} (sample_zips : list A) : list (list A) :=
  map (fun i => iloc_slice sample_zips i (i + batch_size))
      (py_range 0 (length sample_zips) batch_size).

(** ** DistanceMatrixClient *)

(** The loop [for j, route in enumerate(element['elements'])], started at
    position [j]. *)
Fixpoint process_elements (batch : list AreaRecord) (j : nat)
    (routes : list Route) (results : list TravelResult)
  : outcome (list TravelResult) :=
  match routes with
  | [] => mret results
  | route :: rest =>
      match duration route with
      | Some secs =>
          match batch !! j with
          | None => Raise IndexError     (* batch.iloc[j] out of bounds *)
          | Some rec =>
              let zip_code := ZCTA5 rec in
              let state := "VA" in
              let driving_time := (secs / 60)%Q in
              process_elements batch (S j) rest
                (results ++ [ {| zip_code := zip_code;
                                 state := state;
                                 driving_time_minutes := driving_time;
                                 geometry := area_geometry rec |} ])
          end
      | None => process_elements batch (S j) rest results
      end
  end.

(** The loop [for element in data['rows']]. *)
Fixpoint process_rows (batch : list AreaRecord) (data_rows : list MatrixRow)
    (results : list TravelResult) : outcome (list TravelResult) :=
  match data_rows with
  | [] => mret results
  | element :: rest =>
      match elements element with
      | Some routes =>
          results' ← process_elements batch 0 routes results;
          process_rows batch rest results'
      | None => process_rows batch rest results
      end
  end.

Section Services.

(** The geocoding endpoint, by request URL. *)
Variable geocoding_service : string -> GeocodeResponse.

(** The response read for the batch that starts at position [i]: the one
    to the [GET] of line 121, which replaces the response to the [POST]
    of line 119 before that one is looked at. *)
Variable routes_service : nat -> MatrixResponse.

(** [gdf.sample(n)] *)
Variable random_sample : nat -> list AreaRecord -> list AreaRecord.

Definition str_option (o : option string) : string :=
  match o with
  | Some s => s
  | None => "None"
  end.

(** The loop [for component in ...address_components]. *)
Fixpoint find_state (components : list AddressComponent) : option string :=
  match components with
  | [] => None
  | component :: rest =>
      if existsb (String.eqb "administrative_area_level_1") (types component)
      then Some (short_name component)
      else find_state rest
  end.

Definition geocode_address (address : string)
  : Py (option Coords * option string) :=
  c ← get_self;
  let url := "https://maps.googleapis.com/maps/api/geocode/json?address="
             +:+ address +:+ "&key=" +:+ str_option (api_key c) in
  let data := geocoding_service url in
  if negb (String.eqb (geo_status data) "OK")
  then
    print ("Geocoding error: " +:+ geo_status data);;
    mret (None, None)
  else
    match geo_results data with
    | [] => raise IndexError            (* data['results'][0] *)
    | first :: _ =>
        let '(lat, lng) := location first in
        let state := find_state (address_components first) in
        mret (Some (lat, lng), state)
    end.

(** The body of the batch loop for one value of [i]. *)
Definition process_batch (sample_zips : list AreaRecord) (i : nat)
    (results : list TravelResult) : Py (list TravelResult) :=
  let batch := iloc_slice sample_zips i (i + batch_size) in
  let data := routes_service i in
  if negb (String.eqb (rm_status data) "OK")
  then
    print ("API error: " +:+ rm_status data);;
    mret results                         (* continue *)
  else
    match rm_rows data with
    | Some data_rows => lift (process_rows batch data_rows results)
    | None => mret results
    end.

Fixpoint for_batches (sample_zips : list AreaRecord) (starts : list nat)
    (results : list TravelResult) : Py (list TravelResult) :=
  match starts with
  | [] => mret results
  | i :: rest =>
      results' ← process_batch sample_zips i results;
      for_batches sample_zips rest results'
  end.

(** The list [results] as it stands when the batch loop is over. *)
Definition collected_results (origin_coords : Coords)
    (sample_zips : option (list AreaRecord)) : Py (list TravelResult) :=
  sample_zips ← match sample_zips with
                | Some s => mret s
                | None =>
                    c ← get_self;
                    match zip_gdf c with
                    | None => raise AttributeError
                    | Some gdf =>
                        mret (random_sample (Nat.min 100 (length gdf)) gdf)
                    end
                end;
  for_batches sample_zips
    (py_range 0 (length sample_zips) batch_size) [].

(** The method has no [return] statement: once the loop is over it falls
    off its end, and the caller receives [None]. *)
Definition calculate_driving_times (origin_coords : Coords)
    (sample_zips : option (list AreaRecord)) : Py value :=
  results ← collected_results origin_coords sample_zips;
  mret VNone.

(** ** CalculatorFacade *)

Definition str_Z (z : Z) : string := NilEmpty.string_of_int (Z.to_int z).

Definition record_inputs (address : string) (max_time : Z)
    (respect_state : bool) : Py unit :=
  c ← get_self;
  set_self {| api_key := api_key c; zip_gdf := zip_gdf c;
              calc_results := calc_results c;
              origin_address := Some address;
              max_driving_time := Some (inject_Z max_time);
              respect_state_lines := Some respect_state;
              origin_state := origin_state c |}.

Definition set_origin_state (st : option string) : Py unit :=
  c ← get_self;
  set_self {| api_key := api_key c; zip_gdf := zip_gdf c;
              calc_results := calc_results c;
              origin_address := origin_address c;
              max_driving_time := max_driving_time c;
              respect_state_lines := respect_state_lines c;
              origin_state := st |}.

Definition set_results (v : value) : Py unit :=
  c ← get_self;
  set_self {| api_key := api_key c; zip_gdf := zip_gdf c;
              calc_results := v;
              origin_address := origin_address c;
              max_driving_time := max_driving_time c;
              respect_state_lines := respect_state_lines c;
              origin_state := origin_state c |}.

(** [max_time] is the integer the form reads out of its [IntVar]. *)
Definition run_calculation (address : string) (max_time : Z)
    (respect_state : bool) : Py string :=
  record_inputs address max_time respect_state;;
  '(origin_coords, st) ← geocode_address address;
  set_origin_state st;;
  match origin_coords with
  | None => mret "Geocoding failed. Please check the address."
  | Some origin_coords =>
      driving_results ← calculate_driving_times origin_coords None;
      c ← get_self;
      filtered_results ← filter_results driving_results (inject_Z max_time)
                           respect_state (origin_state c);
      set_results filtered_results;;
      map_file ← create_map filtered_results origin_coords;
      csv_file ← export_results filtered_results default_csv;
      n ← len filtered_results;
      mret ("Analysis complete. Found " +:+ str_Z (Z.of_nat n)
            +:+ " zip codes within " +:+ str_Z max_time +:+ " minutes.")
  end.

End Services.

(** ** Notions used in the statements *)

(** The rows kept by [filter_results], as one predicate. *)
Definition keeps (max_time : Q) (respect_state_lines : bool)
    (origin_state : option string) (r : TravelResult) : bool :=
  Qle_bool (driving_time_minutes r) max_time
  && (negb respect_state_lines || state_eqb (state r) origin_state).

(** The example of the specification. *)
Definition example_results (g1 g2 : Geometry) : DataFrame :=
  [ {| zip_code := "22201"; state := "VA"; driving_time_minutes := 15;
       geometry := g1 |};
    {| zip_code := "20001"; state := "DC"; driving_time_minutes := 50;
       geometry := g2 |} ].

(** The marker [create_map] puts on the origin. *)
Definition origin_marker (origin_coords : Coords) : Marker :=
  {| marker_location := origin_coords; marker_popup := "Origin";
     marker_icon := ("red", "home") |}.

(** The columns and the cells of a row that reach the exported file. *)
Definition exported_columns : list string :=
  ["zip_code"; "state"; "driving_time_minutes"].

Definition exported_cells (r : TravelResult) : list Cell :=
  [CStr (zip_code r); CStr (state r); CNum (driving_time_minutes r)].

(** The number of batches: the sample size divided by 25, rounded up. *)
Definition batch_count (n : nat) : nat := (n + 24) / 25.

Definition geocode_url (address : string) (w : World) : string :=
  "https://maps.googleapis.com/maps/api/geocode/json?address="
  +:+ address +:+ "&key=" +:+ str_option (api_key (self w)).

Definition empty_world : World :=
  {| frames := ∅; files := ∅; console := []; self := init |}.

(** A response that reports success and lists no candidate. *)
Definition ok_without_candidates : GeocodeResponse :=
  {| geo_status := "OK"; geo_results := [] |}.

Definition geocoding_failed : string :=
  "Geocoding failed. Please check the address.".

(** The result recorded for a record of the batch and a duration in
    seconds. *)
Definition travel_result (rec : AreaRecord) (secs : Q) : TravelResult :=
  {| zip_code := ZCTA5 rec; state := "VA";
     driving_time_minutes := (secs / 60)%Q;
     geometry := area_geometry rec |}.

(** Pairing the records of a batch with the response elements by
    position, and keeping the pairs whose element has a duration. *)
Fixpoint aligned_results (batch : list AreaRecord) (routes : list Route)
  : list TravelResult :=
  match batch, routes with
  | rec :: batch', route :: routes' =>
      match duration route with
      | Some secs => travel_result rec secs :: aligned_results batch' routes'
      | None => aligned_results batch' routes'
      end
  | _, _ => []
  end.

(** One record, and a response with one element that has a duration. *)
Definition arlington : AreaRecord :=
  {| ZCTA5 := "22201";
     area_geometry := {| boundary := [];
                         centroid := {| x := (-771 # 10)%Q;
                                        y := (389 # 10)%Q |} |} |}.

Definition one_duration : MatrixResponse :=
  {| rm_status := "OK";
     rm_rows := Some [ {| elements := Some [ {| duration := Some 900%Q |} ] |} ] |}.

Definition no_geometry : Geometry :=
  {| boundary := []; centroid := {| x := 0%Q; y := 0%Q |} |}.

(** A world whose only frame, at reference 1, is the example of the
    specification. *)
Definition example_world : World :=
  allocated (example_results no_geometry no_geometry) empty_world.

(** A world whose only frame, at reference 1, has no row. *)
Definition empty_frame_world : World := allocated [] empty_world.



(** A geocoding provider that finds nothing. *)
Definition zero_results : GeocodeResponse :=
  {| geo_status := "ZERO_RESULTS"; geo_results := [] |}.

(** A geocoding provider that finds one candidate in Virginia. *)
Definition one_candidate : GeocodeResponse :=
  {| geo_status := "OK";
     geo_results :=
       [ {| location := ((389 # 10)%Q, (-771 # 10)%Q);
            address_components :=
              [ {| types := ["locality"; "political"];
                   short_name := "Arlington" |};
                {| types := ["administrative_area_level_1"; "political"];
                   short_name := "VA" |} ] |} ] |}.

(** ** Loading the dataset *)

Definition dataset_filename : string := "zip_codes.geojson".

(** [os.path.exists(name)] *)
Definition path_exists (name : string) : Py bool :=
  fun w => (Return (match files w !! name with
                    | Some _ => true
                    | None => false
                    end), w).

(** What is under a file name, if anything. *)
Definition path_lookup (name : string) : Py (option FileContent) :=
  fun w => (Return (files w !! name), w).

Definition set_zip_gdf (gdf : option (list AreaRecord)) : Py unit :=
  c ← get_self;
  set_self {| api_key := api_key c; zip_gdf := gdf;
              calc_results := calc_results c;
              origin_address := origin_address c;
              max_driving_time := max_driving_time c;
              respect_state_lines := respect_state_lines c;
              origin_state := origin_state c |}.

Definition set_api_key (key : option string) : Py unit :=
  c ← get_self;
  set_self {| api_key := key; zip_gdf := zip_gdf c;
              calc_results := calc_results c;
              origin_address := origin_address c;
              max_driving_time := max_driving_time c;
              respect_state_lines := respect_state_lines c;
              origin_state := origin_state c |}.

Section Dataset.

(** [gpd.read_file], on the content found under the file name: the records
    it yields, or the exception it raises. *)
Variable read_file : FileContent -> outcome (list AreaRecord).

(** [state_boundaries], which is [None] from [__init__] on, set to [None]
    again here and read nowhere, has no field in [Calculator]. *)
Definition load_data : Py bool :=
  found ← path_lookup dataset_filename;       (* os.path.exists *)
  match found with
  | None =>
      print "Downloading zip code data...";;
      print ("Please download zip code data from Census website "
             +:+ "and place in the same directory");;
      mret false
  | Some content =>
      print "Loading zip code boundaries...";;
      gdf ← lift (read_file content);
      set_zip_gdf (Some gdf);;
      mret true
  end.

End Dataset.

(** ** The form *)

(** The variables behind the widgets, and what the form has done to the
    progress bar and the browser. *)
Record Form : Type := {
  api_key_var : string;
  address_var : string;
  max_time_var : Z;
  respect_state_var : bool;
  status_var : string;
  progress_running : bool;
  opened : list string    (* the calls of [webbrowser.open] *)
}.

Definition Gui (A : Type) : Type := Form * World -> outcome A * (Form * World).

#[global] Instance gui_ret : MRet Gui := fun A a s => (Return a, s).
#[global] Instance gui_bind : MBind Gui := fun A B k c s =>
  match c s with
  | (Return a, s') => k a s'
  | (Raise e, s') => (Raise e, s')
  end.

(** A method of the calculator, called from the form. *)
Definition call {A} (c : Py A) : Gui A :=
  fun s => let '(o, w') := c (snd s) in (o, (fst s, w')).

Definition get_form : Gui Form := fun s => (Return (fst s), s).

Definition status_set (text : string) : Gui unit :=
  fun s => (Return tt,
            ({| api_key_var := api_key_var (fst s);
                address_var := address_var (fst s);
                max_time_var := max_time_var (fst s);
                respect_state_var := respect_state_var (fst s);
                status_var := text;
                progress_running := progress_running (fst s);
                opened := opened (fst s) |}, snd s)).

Definition progress_set (running : bool) : Gui unit :=
  fun s => (Return tt,
            ({| api_key_var := api_key_var (fst s);
                address_var := address_var (fst s);
                max_time_var := max_time_var (fst s);
                respect_state_var := respect_state_var (fst s);
                status_var := status_var (fst s);
                progress_running := running;
                opened := opened (fst s) |}, snd s)).

Definition webbrowser_open (url : string) : Gui unit :=
  fun s => (Return tt,
            ({| api_key_var := api_key_var (fst s);
                address_var := address_var (fst s);
                max_time_var := max_time_var (fst s);
                respect_state_var := respect_state_var (fst s);
                status_var := status_var (fst s);
                progress_running := progress_running (fst s);
                opened := opened (fst s) ++ [url] |}, snd s)).

(** A thread run to its end: an exception that escapes its target ends the
    thread and goes no further. *)
Definition thread_run (target : Gui unit) : Gui unit :=
  fun s => match target s with
           | (Return tt, s') => (Return tt, s')
           | (Raise _, s') => (Return tt, s')
           end.

Section App.

Variable read_file : FileContent -> outcome (list AreaRecord).
Variable geocoding_service : string -> GeocodeResponse.
Variable routes_service : nat -> MatrixResponse.
Variable random_sample : nat -> list AreaRecord -> list AreaRecord.

(** The target [load_thread] of [App.load_data]. *)
Definition load_thread : Gui unit :=
  success ← call (load_data read_file);
  (if success : bool
   then status_set "Data loaded successfully"
   else status_set ("Failed to load data. "
                    +:+ "Please check the console for instructions."));;
  progress_set false.

(** [App.load_data], with its thread run to the end. *)
Definition app_load_data : Gui unit :=
  progress_set true;;
  status_set "Loading data...";;
  thread_run load_thread.

(** The target [calculate_thread] of [App.calculate]. *)
Definition calculate_thread : Gui unit :=
  f ← get_form;
  result ← call (run_calculation geocoding_service routes_service
                   random_sample (address_var f) (max_time_var f)
                   (respect_state_var f));
  status_set result;;
  progress_set false;;
  present ← call (path_exists map_filename);
  if present : bool then webbrowser_open map_filename else mret tt.

(** [App.calculate], with its thread run to the end.  The third check,
    [not self.calculator.zip_gdf is not None], reads
    [not (zip_gdf is not None)]. *)
Definition app_calculate : Gui unit :=
  f ← get_form;
  if String.eqb (api_key_var f) ""
  then status_set "Please enter your Google Maps API key"
  else if String.eqb (address_var f) ""
  then status_set "Please enter an origin address"
  else
    c ← call get_self;
    match zip_gdf c with
    | None => status_set "Please load data first"
    | Some _ =>
        progress_set true;;
        status_set "Calculating...";;
        call (set_api_key (Some (api_key_var f)));;
        thread_run calculate_thread
    end.

End App.

(** ** The end of a run *)

(** What [run_calculation] does with the value [calculate_driving_times]
    handed it and the origin: lines 227 to 240. *)
Definition finish_run (driving_results : value) (origin_coords : Coords)
    (max_time : Z) (respect_state : bool) : Py string :=
  c ← get_self;
  filtered_results ← filter_results driving_results (inject_Z max_time)
                       respect_state (origin_state c);
  set_results filtered_results;;
  map_file ← create_map filtered_results origin_coords;
  csv_file ← export_results filtered_results default_csv;
  n ← len filtered_results;
  mret ("Analysis complete. Found " +:+ str_Z (Z.of_nat n)
        +:+ " zip codes within " +:+ str_Z max_time +:+ " minutes.").

(** ** More notions used in the statements *)

Definition has_admin_area (component : AddressComponent) : bool :=
  existsb (String.eqb "administrative_area_level_1") (types component).

Definition has_duration (route : Route) : bool :=
  match duration route with
  | Some _ => true
  | None => false
  end.

(** A response with status ["OK"] and one row listing [routes]. *)
Definition ok_response (routes : list Route) : MatrixResponse :=
  {| rm_status := "OK";
     rm_rows := Some [ {| elements := Some routes |} ] |}.

(** What [create_map] draws for a row of a frame whose largest time is
    [max_time]: a region with the row's geometry and tooltip, in the fixed
    style; filled with pure red when the row's time is the largest, and with
    pure green when it is zero. *)
Definition drawn_for (max_time : Q) (row : TravelResult) (g : GeoJson) : Prop :=
  gj_geometry g = geometry row
  /\ gj_tooltip g = (zip_code row, driving_time_minutes row)
  /\ gj_color g = "black" /\ gj_weight g = 1%Z
  /\ gj_fillOpacity g = (6 # 10)%Q
  /\ ((driving_time_minutes row == max_time)%Q -> gj_fillColor g = "#ff0000")
  /\ ((driving_time_minutes row == 0)%Q -> gj_fillColor g = "#00ff00").


Definition analysis_complete (n : nat) (max_time : Z) : string :=
  "Analysis complete. Found " +:+ str_Z (Z.of_nat n)
  +:+ " zip codes within " +:+ str_Z max_time +:+ " minutes.".

(** The sample the batch loop of [calculate_driving_times] goes through. *)
Definition sample_used (random_sample : nat -> list AreaRecord -> list AreaRecord)
    (sample_zips : option (list AreaRecord)) (w : World) : list AreaRecord :=
  match sample_zips with
  | Some s => s
  | None => match zip_gdf (self w) with
            | Some gdf => random_sample (Nat.min 100 (length gdf)) gdf
            | None => []
            end
  end.

(** The world after some more lines on the console. *)
Definition with_lines (lines : list string) (w : World) : World :=
  {| frames := frames w; files := files w;
     console := console w ++ lines; self := self w |}.





(** The response has at most one row. *)
Definition one_row (data : MatrixResponse) : Prop :=
  forall data_rows, rm_rows data = Some data_rows -> length data_rows <= 1.

(** A result made for a record of [sample]. *)
Definition made_for (sample : list AreaRecord) (r : TravelResult) : Prop :=
  exists rec secs, In rec sample /\ r = travel_result rec secs.

(** The table [export_results] writes for a frame with rows [df]. *)
Definition exported_table (df : DataFrame) : Table :=
  {| columns := exported_columns; rows := map exported_cells df |}.

(** The form after a new status text, a new state of the progress bar, or
    one more page opened in the browser. *)
Definition with_status (text : string) (f : Form) : Form :=
  {| api_key_var := api_key_var f; address_var := address_var f;
     max_time_var := max_time_var f;
     respect_state_var := respect_state_var f;
     status_var := text; progress_running := progress_running f;
     opened := opened f |}.

Definition with_progress (running : bool) (f : Form) : Form :=
  {| api_key_var := api_key_var f; address_var := address_var f;
     max_time_var := max_time_var f;
     respect_state_var := respect_state_var f;
     status_var := status_var f; progress_running := running;
     opened := opened f |}.

Definition with_opened (pages : list string) (f : Form) : Form :=
  {| api_key_var := api_key_var f; address_var := address_var f;
     max_time_var := max_time_var f;
     respect_state_var := respect_state_var f;
     status_var := status_var f; progress_running := progress_running f;
     opened := opened f ++ pages |}.

(** The world after [zip_gdf] has been assigned. *)
Definition with_zip_gdf (gdf : list AreaRecord) (w : World) : World :=
  {| frames := frames w; files := files w; console := console w;
     self := {| api_key := api_key (self w); zip_gdf := Some gdf;
                calc_results := calc_results (self w);
                origin_address := origin_address (self w);
                max_driving_time := max_driving_time (self w);
                respect_state_lines := respect_state_lines (self w);
                origin_state := origin_state (self w) |} |}.

Definition download_lines : list string :=
  ["Downloading zip code data...";
   "Please download zip code data from Census website "
   +:+ "and place in the same directory"].

(** ** Inputs of the concrete runs *)

(** The candidate of [one_candidate]. *)
Definition clarendon : GeocodeCandidate :=
  {| location := ((389 # 10)%Q, (-771 # 10)%Q);
     address_components :=
       [ {| types := ["locality"; "political"];
            short_name := "Arlington" |};
         {| types := ["administrative_area_level_1"; "political"];
            short_name := "VA" |} ] |}.

(** A calculator that has loaded a dataset of one record. *)
Definition loaded_world : World := with_zip_gdf [arlington] empty_world.

(** A directory that holds a dataset file. *)
Definition dataset_world : World :=
  {| frames := ∅;
     files := {[ dataset_filename :=
                   CsvFile {| columns := ["ZCTA5"; "geometry"]; rows := [] |} ]};
     console := []; self := init |}.

(** A form filled in and at rest. *)
Definition ready_form : Form :=
  {| api_key_var := "secret"; address_var := "2100 Clarendon Blvd";
     max_time_var := 30; respect_state_var := false;
     status_var := "Ready"; progress_running := false; opened := [] |}.

(** * Properties *)

(** ** The store *)

Ltac run_py :=
  repeat (unfold mbind, mret, py_bind, py_ret, outcome_bind, outcome_ret,
          lift, raise; cbn beta iota).

Lemma fresh_not_allocated (w : World) :
  frames w !! fresh (dom (frames w)) = None.
Proof. apply not_elem_of_dom, is_fresh. Qed.

Lemma allocated_lookup_new (df : DataFrame) (w : World) :
  frames (allocated df w) !! fresh (dom (frames w)) = Some df.
Proof. unfold allocated; simpl. apply lookup_insert_eq. Qed.

Lemma allocated_lookup_old (df df0 : DataFrame) (w : World) (k : ref) :
  frames w !! k = Some df0 -> frames (allocated df w) !! k = Some df0.
Proof.
  intros Hk. unfold allocated; simpl.
  rewrite lookup_insert_ne; [exact Hk|].
  intros <-. rewrite fresh_not_allocated in Hk. discriminate.
Qed.

Lemma fresh_differs (w : World) (k : ref) (df : DataFrame) :
  frames w !! k = Some df -> fresh (dom (frames w)) <> k.
Proof. intros Hk <-. rewrite fresh_not_allocated in Hk. discriminate. Qed.

Lemma deref_allocated (w : World) (l : ref) (df : DataFrame) :
  frames w !! l = Some df -> deref (VRef l) w = (Return df, w).
Proof. intros Hl. unfold deref. now rewrite Hl. Qed.

Lemma len_allocated (w : World) (l : ref) (df : DataFrame) :
  frames w !! l = Some df -> len (VRef l) w = (Return (length df), w).
Proof. intros Hl. unfold len. run_py. now rewrite (deref_allocated w l df). Qed.

Lemma getitem_mask_allocated (w : World) (l : ref) (df : DataFrame)
    (mask : TravelResult -> bool) :
  frames w !! l = Some df ->
  getitem_mask (VRef l) mask w =
    (Return (VRef (fresh (dom (frames w)))), allocated (List.filter mask df) w).
Proof.
  intros Hl. unfold getitem_mask. run_py.
  now rewrite (deref_allocated w l df).
Qed.

(** ** ResultFilter *)

Lemma filter_twice {A} (p q : A -> bool) (l : list A) :
  List.filter q (List.filter p l) = List.filter (fun a => p a && q a) l.
Proof.
  induction l as [|a l IH]; simpl; [reflexivity|].
  destruct (p a); simpl; [destruct (q a)|]; now rewrite IH.
Qed.

Lemma state_eqb_spec (s : string) (origin : option string) :
  state_eqb s origin = true <-> origin = Some s.
Proof.
  destruct origin as [o|]; simpl.
  - rewrite String.eqb_eq. split; [now intros ->|now intros [= ->]].
  - split; discriminate.
Qed.

Lemma keeps_spec (max_time : Q) (respect : bool) (origin : option string)
    (r : TravelResult) :
  keeps max_time respect origin r = true <->
  (driving_time_minutes r <= max_time)%Q /\
  (respect = false \/ origin = Some (state r)).
Proof.
  unfold keeps. rewrite andb_true_iff, orb_true_iff, negb_true_iff.
  now rewrite Qle_bool_iff, state_eqb_spec.
Qed.

(** What a call of [filter_results] on an allocated frame does: the value
    it returns and the world it leaves. *)
Lemma filter_results_run (w : World) (l : ref) (df : DataFrame)
    (max_time : Q) (respect : bool) (origin : option string) :
  frames w !! l = Some df ->
  exists (l' : ref) (w' : World),
    filter_results (VRef l) max_time respect origin w = (Return (VRef l'), w')
    /\ frames w' !! l' = Some (List.filter (keeps max_time respect origin) df)
    /\ l' <> l
    /\ (forall k v, frames w !! k = Some v -> frames w' !! k = Some v)
    /\ files w' = files w /\ console w' = console w /\ self w' = self w.
Proof.
  intros Hl. unfold filter_results. run_py.
  rewrite (getitem_mask_allocated w l df _ Hl).
  set (by_time := List.filter _ df).
  destruct respect.
  - rewrite (getitem_mask_allocated _ _ by_time); [|apply allocated_lookup_new].
    eexists _, _. split; [reflexivity|].
    split; [|split; [|split; [|now simpl]]].
    + rewrite allocated_lookup_new. unfold by_time.
      now rewrite filter_twice.
    + apply fresh_differs with (df := df).
      now apply allocated_lookup_old.
    + intros k v Hk. now do 2 apply allocated_lookup_old.
  - eexists _, _. split; [reflexivity|].
    split; [|split; [|split; [|now simpl]]].
    + rewrite allocated_lookup_new. unfold by_time. f_equal.
      apply List.filter_ext. intros r. unfold keeps. simpl.
      now rewrite andb_true_r.
    + now apply fresh_differs with (df := df).
    + intros k v Hk. now apply allocated_lookup_old.
Qed.

(** C1. [filter_results] returns a frame holding exactly the rows [r] of
    its argument with [r.driving_time_minutes <= max_time] and, when
    [respect_state_lines] is set, [r.state == origin_state], in their
    order; on the two-row example with [max_time = 30], the flag set and
    origin state ["VA"], that frame holds the 22201 row alone. *)
Theorem filter_results_exact :
  (forall (w : World) (l : ref) (df : DataFrame) (max_time : Q)
          (respect : bool) (origin : option string),
      frames w !! l = Some df ->
      exists (l' : ref) (w' : World) (filtered : DataFrame),
        filter_results (VRef l) max_time respect origin w
          = (Return (VRef l'), w')
        /\ frames w' !! l' = Some filtered
        /\ filtered = List.filter (keeps max_time respect origin) df
        /\ forall r, In r filtered <->
                     In r df
                     /\ (driving_time_minutes r <= max_time)%Q
                     /\ (respect = false \/ origin = Some (state r)))
  /\ (forall (w : World) (l : ref) (g1 g2 : Geometry),
         frames w !! l = Some (example_results g1 g2) ->
         exists (l' : ref) (w' : World),
           filter_results (VRef l) 30 true (Some "VA") w
             = (Return (VRef l'), w')
           /\ frames w' !! l' =
                Some [ {| zip_code := "22201"; state := "VA";
                          driving_time_minutes := 15; geometry := g1 |} ]).
Proof.
  split.
  - intros w l df max_time respect origin Hl.
    destruct (filter_results_run w l df max_time respect origin Hl)
      as (l' & w' & Hrun & Hnew & _).
    exists l', w', (List.filter (keeps max_time respect origin) df).
    split; [assumption|]. split; [assumption|]. split; [reflexivity|].
    intros r. rewrite List.filter_In, keeps_spec. reflexivity.
  - intros w l g1 g2 Hl.
    destruct (filter_results_run w l _ 30 true (Some "VA") Hl)
      as (l' & w' & Hrun & Hnew & _).
    exists l', w'. split; [assumption|]. exact Hnew.
Qed.

Lemma filter_sublist {A} (p : A -> bool) (l : list A) :
  sublist (List.filter p l) l.
Proof.
  induction l as [|a l IH]; simpl.
  - constructor.
  - destruct (p a); [now apply sublist_skip | now apply sublist_cons].
Qed.

(** C9. A call of [filter_results] leaves the frame it was given as it
    was (as it does every other frame, the files, the console and the
    fields of [self]); what it returns is another object, whose rows are a
    subset, and a subsequence, of the rows it was given. *)
Theorem filter_results_no_mutation (w : World) (l : ref) (df : DataFrame)
    (max_time : Q) (respect : bool) (origin : option string) :
  frames w !! l = Some df ->
  exists (l' : ref) (w' : World) (filtered : DataFrame),
    filter_results (VRef l) max_time respect origin w = (Return (VRef l'), w')
    /\ frames w' !! l = Some df
    /\ (forall k v, frames w !! k = Some v -> frames w' !! k = Some v)
    /\ files w' = files w /\ console w' = console w /\ self w' = self w
    /\ l' <> l
    /\ frames w' !! l' = Some filtered
    /\ (forall r, In r filtered -> In r df)
    /\ sublist filtered df.
Proof.
  intros Hl.
  destruct (filter_results_run w l df max_time respect origin Hl)
    as (l' & w' & Hrun & Hnew & Hne & Hold & Hfiles & Hconsole & Hself).
  exists l', w', (List.filter (keeps max_time respect origin) df).
  split; [exact Hrun|]. split; [now apply Hold|].
  split; [exact Hold|]. split; [exact Hfiles|]. split; [exact Hconsole|].
  split; [exact Hself|]. split; [exact Hne|]. split; [exact Hnew|].
  split; [|apply filter_sublist].
  intros r Hin. now apply List.filter_In in Hin.
Qed.

(** ** The colour ramp *)

Lemma truncate_le_mono (p q : Q) : (p <= q)%Q -> (truncate p <= truncate q)%Z.
Proof.
  destruct p as [a b], q as [c d]. unfold Qle, truncate; simpl. intros Hle.
  rewrite <- (Z.quot_mul_cancel_r a (Z.pos b) (Z.pos d)) by lia.
  rewrite <- (Z.quot_mul_cancel_r c (Z.pos d) (Z.pos b)) by lia.
  rewrite (Z.mul_comm (Z.pos d) (Z.pos b)).
  apply Z.quot_le_mono; lia.
Qed.

Lemma truediv_nonzero (a b : Q) :
  ~ (b == 0)%Q -> truediv a b = Finite (a / b)%Q.
Proof.
  intros Hb. unfold truediv.
  destruct (Qeq_bool b 0) eqn:E; [|reflexivity].
  now apply Qeq_bool_iff in E.
Qed.


Lemma color_channels_nonzero (time max_time : Q) :
  ~ (max_time == 0)%Q ->
  color_channels time max_time =
    Return (Z.min 255 (truncate (255 * (time / max_time))%Q),
            Z.min 255 (truncate (255 * (1 - time / max_time))%Q),
            0%Z).
Proof.
  intros Hm. unfold color_channels. now rewrite truediv_nonzero.
Qed.


(** ** MapRenderer *)

(** C6. On an empty filtered set, [create_map] writes and returns
    [driving_time_radius.html], and the map it writes has exactly one
    marker, the one on the origin, and no region overlay. *)
Theorem create_map_empty (w : World) (l : ref) (origin_coords : Coords) :
  frames w !! l = Some [] ->
  exists (w' : World) (m : FoliumMap),
    create_map (VRef l) origin_coords w = (Return map_filename, w')
    /\ files w' = <[map_filename := HtmlMap m]> (files w)
    /\ markers m = [origin_marker origin_coords]
    /\ length (markers m) = 1
    /\ overlays m = []
    /\ map_location m = origin_coords
    /\ frames w' = frames w.
Proof.
  intros Hl. unfold create_map. run_py.
  rewrite (len_allocated w l [] Hl). simpl.
  eexists _, _. split; [reflexivity|]. simpl.
  repeat split.
Qed.





(** ** ResultExporter *)

Lemma drop_geometry (df : DataFrame) :
  drop_column (to_table df) "geometry" =
    Return {| columns := exported_columns; rows := map exported_cells df |}.
Proof.
  unfold drop_column, to_table; simpl. do 2 f_equal.
  rewrite map_map. now apply map_ext.
Qed.

(** C5. [export_results] on an empty filtered set returns [None] and
    leaves the world, hence every file, as it was; on a non-empty one it
    returns the file name and writes under it a table that has every
    column of the results but [geometry], and one row per result: the
    result's zip code, state and driving time, in the order of the
    results. *)
Theorem export_results_rows (w : World) (l : ref) (df : DataFrame)
    (filename : string) :
  frames w !! l = Some df ->
  (df = [] -> export_results (VRef l) filename w = (Return None, w))
  /\ (df <> [] ->
      exists (w' : World) (t : Table),
        export_results (VRef l) filename w = (Return (Some filename), w')
        /\ files w' = <[filename := CsvFile t]> (files w)
        /\ columns t = exported_columns
        /\ ~ In "geometry" (columns t)
        /\ (forall c, In c (columns t) <-> In c frame_columns /\ c <> "geometry")
        /\ length (rows t) = length df
        /\ rows t = map exported_cells df).
Proof.
  intros Hl. split.
  - intros ->. unfold export_results. run_py.
    now rewrite (len_allocated w l [] Hl).
  - intros Hne. unfold export_results. run_py.
    rewrite (len_allocated w l df Hl).
    destruct df as [|row rest]; [contradiction|].
    cbn [length Nat.ltb Nat.leb].
    rewrite (deref_allocated w l _ Hl).
    unfold alloc at 1.
    rewrite (deref_allocated _ _ (row :: rest));
      [|apply allocated_lookup_new].
    rewrite drop_geometry.
    eexists _, _. split; [reflexivity|]. simpl.
    split; [reflexivity|]. split; [reflexivity|].
    split; [intros [H|[H|[H|[]]]]; discriminate|].
    split; [|split; [cbn; now rewrite List.length_map | reflexivity]].
    intros c. unfold exported_columns, frame_columns; simpl.
    split.
    + intros [<-|[<-|[<-|[]]]]; (split; [tauto | discriminate]).
    + intros [[<-|[<-|[<-|[<-|[]]]]] Hc]; tauto.
Qed.

(** ** DistanceSampler *)


Lemma batch_count_bounds (n : nat) :
  n <= batch_count n * 25 < n + 25.
Proof.
  unfold batch_count.
  pose proof (Nat.div_mod_eq (n + 24) 25) as Hdm.
  pose proof (Nat.mod_upper_bound (n + 24) 25) as Hlt.
  lia.
Qed.

Lemma batches_chunks {A} (sample_zips : list A) :
  batches sample_zips =
    map (fun k => take 25 (drop (k * 25) sample_zips))
        (seq 0 (batch_count (length sample_zips))).
Proof.
  unfold batches, py_range, batch_count, batch_size.
  rewrite map_map, Nat.sub_0_r.
  apply map_ext. intros k. unfold iloc_slice. f_equal. lia.
Qed.

Lemma concat_chunks {A} (l : list A) (m : nat) :
  concat (map (fun k => take 25 (drop (k * 25) l)) (seq 0 m)) = take (m * 25) l.
Proof.
  induction m as [|m IH].
  - reflexivity.
  - rewrite seq_S, map_app, concat_app, IH. simpl.
    rewrite app_nil_r, take_take_drop. f_equal. lia.
Qed.


(** ** Geocoder *)

Section GeocoderProperties.

Variable geocoding_service : string -> GeocodeResponse.

(** Whatever its outcome, [geocode_address] touches neither the files,
    nor the frames, nor the fields of [self]. *)
Lemma geocode_address_frame (address : string) (w : World) :
  let w' := snd (geocode_address geocoding_service address w) in
  files w' = files w /\ frames w' = frames w /\ self w' = self w.
Proof.
  unfold geocode_address, get_self. run_py.
  destruct (negb _).
  - now unfold print.
  - destruct (geo_results _) as [|first rest]; [now simpl|].
    now destruct (location first).
Qed.

(** C3, as the code has it.  A response whose status is not ["OK"]
    makes [geocode_address] return the failure signal [(None, None)]
    without raising, after one line on the console; a response with status
    ["OK"] and at least one candidate makes it return the coordinates of
    the first candidate and the short name of that candidate's first
    [administrative_area_level_1] component ([None] when it has none). *)
Theorem geocode_address_outcomes (address : string) (w : World) :
  let data := geocoding_service (geocode_url address w) in
  (geo_status data <> "OK" ->
   geocode_address geocoding_service address w =
     (Return (None, None),
      printed ("Geocoding error: " +:+ geo_status data) w))
  /\ (forall (first : GeocodeCandidate) (rest : list GeocodeCandidate),
        geo_status data = "OK" ->
        geo_results data = first :: rest ->
        geocode_address geocoding_service address w =
          (Return (Some (location first),
                   find_state (address_components first)), w)).
Proof.
  intros data. split.
  - intros Hst. unfold geocode_address, get_self. run_py.
    fold (geocode_url address w). fold data.
    apply String.eqb_neq in Hst. now rewrite Hst.
  - intros first rest Hst Hres. unfold geocode_address, get_self. run_py.
    fold (geocode_url address w). fold data.
    rewrite Hst, Hres. simpl. now destruct (location first).
Qed.

End GeocoderProperties.

(** On a response with status ["OK"] and an empty [results] list,
    [geocode_address] does not return the failure signal: the subscript
    [data['results'][0]] raises [IndexError]. *)
Lemma geocode_address_no_candidate_raises :
  geo_status ok_without_candidates = "OK"
  /\ geo_results ok_without_candidates = []
  /\ geocode_address (fun _ => ok_without_candidates) "1 Nowhere Road"
       empty_world
     = (Raise IndexError, empty_world)
  /\ fst (geocode_address (fun _ => ok_without_candidates) "1 Nowhere Road"
            empty_world)
     <> Return (None, None).
Proof.
  split; [reflexivity|]. split; [reflexivity|].
  split; [reflexivity|]. discriminate.
Qed.

(** ** CalculatorFacade *)

Section FacadeProperties.

Variable geocoding_service : string -> GeocodeResponse.
Variable routes_service : nat -> MatrixResponse.
Variable random_sample : nat -> list AreaRecord -> list AreaRecord.

(** C4. When the geocoder returns its failure signal, [run_calculation]
    returns the message "Geocoding failed. Please check the address." and
    the files are what they were before the run: neither the map nor the
    export has been written, and no frame has been created. *)
Theorem run_calculation_geocoding_failure (address : string) (max_time : Z)
    (respect_state : bool) (w : World) :
  fst (geocode_address geocoding_service address
         (snd (record_inputs address max_time respect_state w)))
    = Return (None, None) ->
  exists w' : World,
    run_calculation geocoding_service routes_service random_sample
      address max_time respect_state w = (Return geocoding_failed, w')
    /\ files w' = files w
    /\ files w' !! map_filename = files w !! map_filename
    /\ files w' !! default_csv = files w !! default_csv
    /\ frames w' = frames w.
Proof.
  intros Hfail. unfold run_calculation. run_py.
  destruct (record_inputs address max_time respect_state w)
    as [o1 w1] eqn:Hrec.
  assert (Hw1 : o1 = Return tt /\ files w1 = files w /\ frames w1 = frames w).
  { unfold record_inputs, get_self, set_self in Hrec. run_py.
    injection Hrec as <- <-. now simpl. }
  destruct Hw1 as (-> & Hfiles1 & Hframes1).
  simpl in Hfail.
  pose proof (geocode_address_frame geocoding_service address w1) as Hframe.
  destruct (geocode_address geocoding_service address w1) as [o2 w2].
  simpl in Hfail, Hframe. subst o2.
  destruct Hframe as (Hfiles2 & Hframes2 & _).
  unfold set_origin_state, get_self, set_self. run_py.
  eexists. split; [reflexivity|]. simpl.
  rewrite Hfiles2, Hfiles1, Hframes2, Hframes1. now repeat split.
Qed.

End FacadeProperties.

(** ** DistanceMatrixClient *)


Section ClientProperties.

Variable routes_service : nat -> MatrixResponse.
Variable random_sample : nat -> list AreaRecord -> list AreaRecord.

(** Whatever the origin, the sample and the responses, a call of
    [calculate_driving_times] that does not raise returns [None]. *)
Lemma calculate_driving_times_value (origin_coords : Coords)
    (sample_zips : option (list AreaRecord)) (w : World) :
  match fst (calculate_driving_times routes_service random_sample
               origin_coords sample_zips w) with
  | Return v => v = VNone
  | Raise _ => True
  end.
Proof.
  unfold calculate_driving_times. run_py.
  now destruct (collected_results _ _ _ _ w) as [[results|e] w'].
Qed.

End ClientProperties.

(** C2, on the code.  For the origin (38.9, -77.0), the sample holding the
    single record 22201 and a response with one element of 900 seconds, the
    list [results] ends up holding the one result for 22201, and the method
    returns [None], not that list. *)
Theorem calculate_driving_times_returns_none :
  fst (collected_results (fun _ => one_duration) (fun _ gdf => gdf)
         ((389 # 10)%Q, (-770 # 10)%Q) (Some [arlington]) empty_world)
    = Return [travel_result arlington 900]
  /\ fst (calculate_driving_times (fun _ => one_duration) (fun _ gdf => gdf)
            ((389 # 10)%Q, (-770 # 10)%Q) (Some [arlington]) empty_world)
     = Return VNone.
Proof. split; reflexivity. Qed.

(** * The properties on concrete runs *)

Lemma filter_results_exact_witness :
  frames example_world !! 1%positive
    = Some (example_results no_geometry no_geometry)
  /\ exists (l' : ref) (w' : World),
       filter_results (VRef 1%positive) 30 true (Some "VA") example_world
         = (Return (VRef l'), w')
       /\ frames w' !! l' =
            Some [ {| zip_code := "22201"; state := "VA";
                      driving_time_minutes := 15; geometry := no_geometry |} ].
Proof.
  split; [vm_compute; reflexivity|].
  apply (proj2 filter_results_exact example_world 1%positive
           no_geometry no_geometry).
  vm_compute; reflexivity.
Defined.

Lemma filter_results_no_mutation_witness :
  frames example_world !! 1%positive
    = Some (example_results no_geometry no_geometry)
  /\ exists (l' : ref) (w' : World) (filtered : DataFrame),
       filter_results (VRef 1%positive) 30 true (Some "VA") example_world
         = (Return (VRef l'), w')
       /\ frames w' !! 1%positive
            = Some (example_results no_geometry no_geometry)
       /\ (forall k v, frames example_world !! k = Some v ->
                       frames w' !! k = Some v)
       /\ files w' = files example_world
       /\ console w' = console example_world
       /\ self w' = self example_world
       /\ l' <> 1%positive
       /\ frames w' !! l' = Some filtered
       /\ (forall r, In r filtered ->
                     In r (example_results no_geometry no_geometry))
       /\ sublist filtered (example_results no_geometry no_geometry).
Proof.
  split; [vm_compute; reflexivity|].
  apply filter_results_no_mutation.
  vm_compute; reflexivity.
Defined.

Lemma create_map_empty_witness :
  frames empty_frame_world !! 1%positive = Some []
  /\ exists (w' : World) (m : FoliumMap),
       create_map (VRef 1%positive) ((389 # 10)%Q, (-771 # 10)%Q)
         empty_frame_world = (Return map_filename, w')
       /\ files w' = <[map_filename := HtmlMap m]> (files empty_frame_world)
       /\ markers m = [origin_marker ((389 # 10)%Q, (-771 # 10)%Q)]
       /\ length (markers m) = 1
       /\ overlays m = []
       /\ map_location m = ((389 # 10)%Q, (-771 # 10)%Q)
       /\ frames w' = frames empty_frame_world.
Proof.
  split; [vm_compute; reflexivity|].
  apply create_map_empty. vm_compute; reflexivity.
Defined.



Lemma export_results_rows_witness :
  frames example_world !! 1%positive
    = Some (example_results no_geometry no_geometry)
  /\ example_results no_geometry no_geometry <> []
  /\ exists (w' : World) (t : Table),
       export_results (VRef 1%positive) default_csv example_world
         = (Return (Some default_csv), w')
       /\ files w' = <[default_csv := CsvFile t]> (files example_world)
       /\ columns t = exported_columns
       /\ ~ In "geometry" (columns t)
       /\ (forall c, In c (columns t) <->
                     In c frame_columns /\ c <> "geometry")
       /\ length (rows t) = length (example_results no_geometry no_geometry)
       /\ rows t = map exported_cells (example_results no_geometry no_geometry).
Proof.
  split; [vm_compute; reflexivity|]. split; [discriminate|].
  apply (export_results_rows example_world 1%positive
           (example_results no_geometry no_geometry) default_csv);
    [vm_compute; reflexivity | discriminate].
Defined.


Lemma geocode_address_outcomes_witness :
  geo_status zero_results <> "OK"
  /\ geocode_address (fun _ => zero_results) "1 Nowhere Road" empty_world
     = (Return (None, None),
        printed "Geocoding error: ZERO_RESULTS" empty_world)
  /\ geo_status one_candidate = "OK"
  /\ geocode_address (fun _ => one_candidate) "2100 Clarendon Blvd"
       empty_world
     = (Return (Some ((389 # 10)%Q, (-771 # 10)%Q), Some "VA"), empty_world).
Proof.
  split; [discriminate|].
  split.
  { apply (proj1 (geocode_address_outcomes (fun _ => zero_results)
                    "1 Nowhere Road" empty_world)).
    discriminate. }
  split; [reflexivity|].
  apply (proj2 (geocode_address_outcomes (fun _ => one_candidate)
                  "2100 Clarendon Blvd" empty_world)
           _ [] eq_refl eq_refl).
Defined.

Lemma run_calculation_geocoding_failure_witness :
  fst (geocode_address (fun _ => zero_results) "1 Nowhere Road"
         (snd (record_inputs "1 Nowhere Road" 30 true empty_world)))
    = Return (None, None)
  /\ exists w' : World,
       run_calculation (fun _ => zero_results) (fun _ => one_duration)
         (fun _ gdf => gdf) "1 Nowhere Road" 30 true empty_world
         = (Return geocoding_failed, w')
       /\ files w' = files empty_world
       /\ files w' !! map_filename = files empty_world !! map_filename
       /\ files w' !! default_csv = files empty_world !! default_csv
       /\ frames w' = frames empty_world.
Proof.
  split; [reflexivity|].
  apply run_calculation_geocoding_failure. reflexivity.
Defined.

(** * Further properties *)

(** ** Geocoder *)

Lemma find_state_cons (c : AddressComponent) (rest : list AddressComponent) :
  find_state (c :: rest) =
    if has_admin_area c then Some (short_name c) else find_state rest.
Proof. reflexivity. Qed.

Lemma has_admin_area_find (components : list AddressComponent) :
  find_state components = None
  <-> Forall (fun c => has_admin_area c = false) components.
Proof.
  induction components as [|c rest IH].
  - split; [constructor | reflexivity].
  - rewrite find_state_cons. destruct (has_admin_area c) eqn:E.
    + split; [discriminate|]. intros H. inversion H; congruence.
    + rewrite IH. split; [now constructor | now inversion 1].
Qed.

(** X1. The state [geocode_address] reports is the short name of the
    first address component whose types list
    [administrative_area_level_1]; it is [None] exactly when no component
    lists it. *)
Theorem find_state_first (components : list AddressComponent) :
  (find_state components = None
   <-> Forall (fun c => has_admin_area c = false) components)
  /\ (forall s : string,
        find_state components = Some s
        <-> exists before c after,
              components = before ++ c :: after
              /\ Forall (fun c' => has_admin_area c' = false) before
              /\ has_admin_area c = true
              /\ short_name c = s).
Proof.
  split; [apply has_admin_area_find|].
  induction components as [|c rest IH]; intros s.
  - split; [discriminate|].
    intros (before & c & after & H & _). now destruct before.
  - rewrite find_state_cons. destruct (has_admin_area c) eqn:E.
    + split.
      * intros [= <-]. exists [], c, rest. repeat split; auto.
      * intros (before & c' & after & Heq & Hb & Hc & Hs).
        destruct before as [|b before]; simpl in Heq.
        -- injection Heq as -> ->. now rewrite Hs.
        -- injection Heq as -> ->. inversion Hb; congruence.
    + rewrite IH. split.
      * intros (before & c' & after & -> & Hb & Hc & Hs).
        exists (c :: before), c', after. repeat split; auto.
      * intros (before & c' & after & Heq & Hb & Hc & Hs).
        destruct before as [|b before]; simpl in Heq.
        -- injection Heq as -> ->. congruence.
        -- injection Heq as -> ->. exists before, c', after.
           inversion Hb. repeat split; auto.
Qed.

Section GeocoderMore.

Variable geocoding_service : string -> GeocodeResponse.

(** X2. What [geocode_address] returns tells what the response was:
    the failure signal comes only of a status other than ["OK"];
    coordinates come only of status ["OK"] and a list of candidates that is
    not empty, and are then the location of the first candidate, with the
    state found among its components; and status ["OK"] with no candidate
    ends in [IndexError]. *)
Theorem geocode_address_cases (address : string) (w : World) :
  let data := geocoding_service (geocode_url address w) in
  let o := fst (geocode_address geocoding_service address w) in
  (forall st, o = Return (None, st) -> st = None /\ geo_status data <> "OK")
  /\ (forall coords st,
        o = Return (Some coords, st) ->
        geo_status data = "OK"
        /\ exists first rest,
             geo_results data = first :: rest
             /\ coords = location first
             /\ st = find_state (address_components first))
  /\ (geo_status data = "OK" -> geo_results data = [] ->
      o = Raise IndexError).
Proof.
  intros data o. subst o. unfold geocode_address, get_self. run_py.
  fold (geocode_url address w). fold data.
  destruct (String.eqb_spec (geo_status data) "OK") as [Hok|Hno]; simpl.
  - destruct (geo_results data) as [|first rest] eqn:Hres; simpl.
    + split; [discriminate|]. split; [discriminate | reflexivity].
    + destruct (location first) as [lat lng] eqn:Hloc. simpl.
      split; [discriminate|]. split; [|discriminate].
      intros coords st [= <- <-]. split; [exact Hok|].
      exists first, rest. now rewrite Hloc.
  - split; [now intros st [= <-]|]. split; [discriminate | contradiction].
Qed.

(** X3. Whatever the response, [geocode_address] changes neither the
    files, nor the frames, nor a field of [self]; it prints one line,
    naming the status, when the status is not ["OK"], and nothing
    otherwise. *)
Theorem geocode_address_effects (address : string) (w : World) :
  let data := geocoding_service (geocode_url address w) in
  let w' := snd (geocode_address geocoding_service address w) in
  files w' = files w /\ frames w' = frames w /\ self w' = self w
  /\ console w' =
       console w ++ (if String.eqb (geo_status data) "OK" then []
                     else ["Geocoding error: " +:+ geo_status data]).
Proof.
  intros data w'. subst w'. unfold geocode_address, get_self. run_py.
  fold (geocode_url address w). fold data.
  destruct (String.eqb (geo_status data) "OK"); simpl.
  - destruct (geo_results data) as [|first rest]; simpl.
    + now rewrite app_nil_r.
    + destruct (location first). simpl. now rewrite app_nil_r.
  - repeat split.
Qed.

End GeocoderMore.
(** ** DistanceSampler *)

Lemma py_range_bound (start stop step k : nat) :
  0 < step ->
  (k < (stop - start + (step - 1)) / step <-> start + k * step < stop).
Proof.
  intros Hstep. split.
  - intros Hk.
    destruct (Nat.lt_ge_cases (start + k * step) stop) as [|Hge]; [assumption|].
    exfalso. apply Nat.lt_nge in Hk. apply Hk.
    apply Nat.lt_succ_r, Nat.Div0.div_lt_upper_bound. nia.
  - intros Hlt. apply Nat.div_le_lower_bound; nia.
Qed.

Lemma map_seq_sorted (f : nat -> nat) (a m : nat) :
  (forall p q, p < q -> f p < f q) ->
  StronglySorted lt (map f (seq a m)).
Proof.
  intros Hf. revert a. induction m as [|m IH]; intros a; simpl.
  - constructor.
  - constructor; [apply IH|].
    apply List.Forall_forall. intros v Hv.
    apply in_map_iff in Hv. destruct Hv as (q & <- & Hq).
    apply in_seq in Hq. apply Hf. lia.
Qed.

(** X4. For a positive step, [range(start, stop, step)] holds exactly the
    numbers from [start] up to, and not including, [stop] that lie a
    multiple of [step] above [start], in increasing order. *)
Theorem py_range_elements (start stop step : nat) :
  0 < step ->
  (forall i, In i (py_range start stop step)
             <-> start <= i < stop /\ (i - start) mod step = 0)
  /\ StronglySorted lt (py_range start stop step).
Proof.
  intros Hstep. split.
  - intros i. unfold py_range. rewrite in_map_iff. split.
    + intros (k & <- & Hk). apply in_seq in Hk.
      destruct Hk as [_ Hk]. simpl in Hk.
      apply py_range_bound in Hk; [|exact Hstep].
      split; [lia|].
      replace (start + k * step - start) with (k * step) by lia.
      apply Nat.Div0.mod_mul.
    + intros [[Hlo Hhi] Hmod].
      exists ((i - start) / step).
      pose proof (Nat.div_mod_eq (i - start) step) as Hdm.
      rewrite Hmod in Hdm.
      split; [lia|].
      apply in_seq. split; [lia|]. simpl.
      apply py_range_bound; [exact Hstep | lia].
  - unfold py_range. apply map_seq_sorted. intros p q Hpq. nia.
Qed.

(** ** DistanceMatrixClient *)

Lemma aligned_results_nil_l (routes : list Route) :
  aligned_results [] routes = [].
Proof. reflexivity. Qed.

Lemma aligned_results_nil_r (batch : list AreaRecord) :
  aligned_results batch [] = [].
Proof. now destruct batch. Qed.

Lemma process_elements_run (batch : list AreaRecord)
    (routes : list Route) (j : nat) (results : list TravelResult) :
  process_elements batch j routes results =
    if existsb has_duration (drop (length batch - j) routes)
    then Raise IndexError
    else Return (results ++ aligned_results (drop j batch) routes).
Proof.
  revert j results.
  induction routes as [|route rest IH]; intros j results.
  - rewrite drop_nil, aligned_results_nil_r, app_nil_r. reflexivity.
  - cbn [process_elements].
    destruct (Nat.lt_ge_cases j (length batch)) as [Hlt|Hge].
    + destruct (lookup_lt_is_Some_2 batch j Hlt) as [rec Hrec].
      rewrite Hrec, (drop_S _ _ _ Hrec).
      replace (length batch - j) with (S (length batch - S j)) by lia.
      cbn [drop aligned_results].
      destruct (duration route) as [secs|]; rewrite IH.
      * destruct (existsb _ _); [reflexivity|].
        now rewrite <- app_assoc.
      * reflexivity.
    + replace (length batch - j) with 0 by lia.
      rewrite drop_0. cbn [existsb]. unfold has_duration at 1.
      rewrite (lookup_ge_None_2 batch j Hge).
      destruct (duration route) as [secs|]; [reflexivity|].
      rewrite IH. replace (length batch - S j) with 0 by lia.
      rewrite drop_0. cbn [orb].
      rewrite !drop_ge by lia. reflexivity.
Qed.


Lemma In_iloc_slice {A} (l : list A) (i j : nat) (a : A) :
  In a (iloc_slice l i j) -> In a l.
Proof.
  unfold iloc_slice. rewrite <- !list_elem_of_In. intros Ha.
  apply (subseteq_drop i l), (subseteq_take (j - i) _), Ha.
Qed.

Lemma aligned_results_In (batch : list AreaRecord) (routes : list Route)
    (r : TravelResult) :
  In r (aligned_results batch routes) ->
  exists rec secs, In rec batch /\ r = travel_result rec secs.
Proof.
  revert routes. induction batch as [|rec batch IH]; intros routes Hr.
  - contradiction.
  - destruct routes as [|route rest]; [contradiction|]. simpl in Hr.
    destruct (duration route) as [secs|].
    + destruct Hr as [<-|Hr].
      * exists rec, secs. split; [now left | reflexivity].
      * destruct (IH _ Hr) as (rec' & secs' & Hin & ->).
        exists rec', secs'. split; [now right | reflexivity].
    + destruct (IH _ Hr) as (rec' & secs' & Hin & ->).
      exists rec', secs'. split; [now right | reflexivity].
Qed.

Lemma aligned_results_length (batch : list AreaRecord) (routes : list Route) :
  length (aligned_results batch routes) <= length batch.
Proof.
  revert routes. induction batch as [|rec batch IH]; intros routes.
  - reflexivity.
  - destruct routes as [|route rest]; simpl; [lia|].
    specialize (IH rest). destruct (duration route); simpl; lia.
Qed.

Lemma process_elements_made_for (sample batch : list AreaRecord)
    (routes : list Route) (j : nat) (results results' : list TravelResult) :
  (forall rec, In rec batch -> In rec sample) ->
  Forall (made_for sample) results ->
  process_elements batch j routes results = Return results' ->
  Forall (made_for sample) results'.
Proof.
  intros Hsub Hres. rewrite process_elements_run.
  destruct (existsb _ _); [discriminate|]. intros [= <-].
  apply List.Forall_app. split; [exact Hres|].
  apply List.Forall_forall. intros r Hr.
  apply aligned_results_In in Hr. destruct Hr as (rec & secs & Hin & ->).
  exists rec, secs. split; [|reflexivity].
  apply Hsub. rewrite <- list_elem_of_In in *.
  now apply (subseteq_drop j batch).
Qed.

Lemma process_rows_made_for (sample batch : list AreaRecord)
    (data_rows : list MatrixRow) (results results' : list TravelResult) :
  (forall rec, In rec batch -> In rec sample) ->
  Forall (made_for sample) results ->
  process_rows batch data_rows results = Return results' ->
  Forall (made_for sample) results'.
Proof.
  intros Hsub. revert results.
  induction data_rows as [|row rest IH]; intros results Hres; simpl.
  - now intros [= <-].
  - destruct (elements row) as [routes|]; [|now apply IH].
    run_py.
    destruct (process_elements batch 0 routes results) as [mid|e] eqn:E;
      [|discriminate].
    apply IH. eapply process_elements_made_for; eauto.
Qed.

Section ClientMore.

Variable routes_service : nat -> MatrixResponse.
Variable random_sample : nat -> list AreaRecord -> list AreaRecord.

(** What one turn of the batch loop does, in every case. *)
Lemma process_batch_run (sample : list AreaRecord) (i : nat)
    (results : list TravelResult) (w : World) :
  process_batch routes_service sample i results w =
    if String.eqb (rm_status (routes_service i)) "OK"
    then match rm_rows (routes_service i) with
         | Some data_rows =>
             (process_rows (iloc_slice sample i (i + batch_size)) data_rows
                results, w)
         | None => (Return results, w)
         end
    else (Return results,
          printed ("API error: " +:+ rm_status (routes_service i)) w).
Proof.
  unfold process_batch. run_py.
  destruct (String.eqb _ "OK"); simpl; [|reflexivity].
  now destruct (rm_rows _).
Qed.

Lemma with_lines_nil (w : World) : with_lines [] w = w.
Proof. destruct w. unfold with_lines. simpl. now rewrite app_nil_r. Qed.

Lemma with_lines_app (l1 l2 : list string) (w : World) :
  with_lines l2 (with_lines l1 w) = with_lines (l1 ++ l2) w.
Proof. unfold with_lines. simpl. now rewrite app_assoc. Qed.

Lemma process_batch_world (sample : list AreaRecord) (i : nat)
    (results : list TravelResult) (w : World) :
  exists lines,
    snd (process_batch routes_service sample i results w) = with_lines lines w
    /\ length lines <= 1.
Proof.
  rewrite process_batch_run.
  destruct (String.eqb _ "OK").
  - exists []. rewrite with_lines_nil.
    split; [|simpl; lia]. now destruct (rm_rows _).
  - eexists [_]. split; [reflexivity | simpl; lia].
Qed.

Lemma for_batches_world (sample : list AreaRecord) (starts : list nat)
    (results : list TravelResult) (w : World) :
  exists lines,
    snd (for_batches routes_service sample starts results w)
      = with_lines lines w
    /\ length lines <= length starts.
Proof.
  revert results w.
  induction starts as [|i rest IH]; intros results w; simpl.
  - exists []. now rewrite with_lines_nil.
  - run_py.
    destruct (process_batch_world sample i results w) as (l1 & H1 & Hl1).
    destruct (process_batch routes_service sample i results w)
      as [[mid|e] w1]; simpl in H1; subst w1.
    + destruct (IH mid (with_lines l1 w)) as (l2 & H2 & Hl2).
      exists (l1 ++ l2). rewrite H2, with_lines_app, length_app.
      split; [reflexivity | lia].
    + exists l1. split; [reflexivity | lia].
Qed.

Lemma for_batches_made_for (sample : list AreaRecord) (starts : list nat)
    (results results' : list TravelResult) (w w' : World) :
  Forall (made_for sample) results ->
  for_batches routes_service sample starts results w = (Return results', w') ->
  Forall (made_for sample) results'.
Proof.
  revert results w.
  induction starts as [|i rest IH]; intros results w Hres; simpl.
  - now intros [= <- _].
  - run_py. rewrite process_batch_run.
    destruct (String.eqb _ "OK").
    + destruct (rm_rows _) as [data_rows|]; [|now apply IH].
      destruct (process_rows _ data_rows results) as [mid|e] eqn:E;
        [|discriminate].
      apply IH. eapply process_rows_made_for; [|exact Hres|exact E].
      intros rec. apply In_iloc_slice.
    + now apply IH.
Qed.

(** The sample is settled without a change to the world. *)
Lemma collected_results_run (origin_coords : Coords)
    (sample_zips : option (list AreaRecord)) (w : World) :
  collected_results routes_service random_sample origin_coords sample_zips w =
    match sample_zips, zip_gdf (self w) with
    | None, None => (Raise AttributeError, w)
    | _, _ =>
        let sample := sample_used random_sample sample_zips w in
        for_batches routes_service sample
          (py_range 0 (length sample) batch_size) [] w
    end.
Proof.
  unfold collected_results, sample_used, get_self. run_py.
  destruct sample_zips as [s|]; [now destruct (zip_gdf (self w))|].
  now destruct (zip_gdf (self w)).
Qed.

(** X6. Every result [calculate_driving_times] collects is made for a
    record of the sample it went through: it has that record's zip code
    and geometry, a driving time that is a number of seconds divided by 60,
    and the state ["VA"], whatever the record. *)
Theorem collected_results_provenance (origin_coords : Coords)
    (sample_zips : option (list AreaRecord)) (w w' : World)
    (results : list TravelResult) :
  collected_results routes_service random_sample origin_coords sample_zips w
    = (Return results, w') ->
  Forall (fun r =>
            state r = "VA"
            /\ exists rec secs,
                 In rec (sample_used random_sample sample_zips w)
                 /\ zip_code r = ZCTA5 rec
                 /\ geometry r = area_geometry rec
                 /\ driving_time_minutes r = (secs / 60)%Q) results.
Proof.
  rewrite collected_results_run. intros Hrun.
  assert (Hmade : Forall (made_for (sample_used random_sample sample_zips w))
                    results).
  { destruct sample_zips as [s|]; [|destruct (zip_gdf (self w)) eqn:Hz].
    - destruct (zip_gdf (self w));
        eapply for_batches_made_for; eauto.
    - eapply for_batches_made_for; eauto.
    - discriminate. }
  eapply List.Forall_impl; [|exact Hmade].
  intros r (rec & secs & Hin & ->). split; [reflexivity|].
  now exists rec, secs.
Qed.

(** X7. Whatever its outcome, [calculate_driving_times] changes neither
    the files, nor the frames, nor a field of [self]; all it does to the
    world is print, at most one line per batch. *)
Theorem calculate_driving_times_effects (origin_coords : Coords)
    (sample_zips : option (list AreaRecord)) (w : World) :
  let w' := snd (calculate_driving_times routes_service random_sample
                   origin_coords sample_zips w) in
  files w' = files w /\ frames w' = frames w /\ self w' = self w
  /\ exists lines,
       console w' = console w ++ lines
       /\ length lines
          <= batch_count (length (sample_used random_sample sample_zips w)).
Proof.
  intros w'. subst w'. unfold calculate_driving_times. run_py.
  rewrite collected_results_run.
  set (sample := sample_used random_sample sample_zips w).
  assert (Hcount : length (py_range 0 (length sample) batch_size)
                   = batch_count (length sample)).
  { unfold py_range, batch_count, batch_size.
    rewrite List.length_map, List.length_seq. f_equal. lia. }
  destruct (for_batches_world sample (py_range 0 (length sample) batch_size)
              [] w) as (lines & Hw & Hlen).
  assert (Hloop :
    let w1 := snd (for_batches routes_service sample
                     (py_range 0 (length sample) batch_size) [] w) in
    files w1 = files w /\ frames w1 = frames w /\ self w1 = self w
    /\ exists lines, console w1 = console w ++ lines
                     /\ length lines <= batch_count (length sample)).
  { cbv zeta. rewrite Hw. repeat split. exists lines.
    split; [reflexivity|]. rewrite <- Hcount. exact Hlen. }
  destruct sample_zips as [s|]; [|destruct (zip_gdf (self w)) eqn:Hz].
  - destruct (zip_gdf (self w));
      destruct (for_batches _ _ _ _ w) as [[res|e] w1]; exact Hloop.
  - destruct (for_batches _ _ _ _ w) as [[res|e] w1]; exact Hloop.
  - simpl. repeat split. exists []. rewrite app_nil_r.
    split; [reflexivity | apply Nat.le_0_l].
Qed.

End ClientMore.


Lemma process_rows_length (batch : list AreaRecord)
    (data_rows : list MatrixRow) (results results' : list TravelResult) :
  length data_rows <= 1 ->
  process_rows batch data_rows results = Return results' ->
  length results' <= length results + length batch.
Proof.
  destruct data_rows as [|row [|row' rest]]; simpl; [| |lia].
  - intros _ [= <-]. lia.
  - intros _. destruct (elements row) as [routes|].
    + run_py. rewrite process_elements_run.
      destruct (existsb _ _); [discriminate|]. intros [= <-].
      rewrite length_app, drop_0.
      pose proof (aligned_results_length batch routes). lia.
    + intros [= <-]. lia.
Qed.

Lemma concat_batches {A} (sample_zips : list A) :
  concat (batches sample_zips) = sample_zips.
Proof.
  pose proof (batch_count_bounds (length sample_zips)) as Hb.
  rewrite batches_chunks, concat_chunks. apply take_ge. lia.
Qed.

Lemma batches_total_length {A} (sample_zips : list A) :
  length (flat_map (fun i => iloc_slice sample_zips i (i + batch_size))
            (py_range 0 (length sample_zips) batch_size))
  = length sample_zips.
Proof.
  rewrite flat_map_concat_map.
  change (map _ (py_range 0 (length sample_zips) batch_size))
    with (batches sample_zips).
  now rewrite concat_batches.
Qed.

Section ClientResults.

Variable routes_service : nat -> MatrixResponse.
Variable random_sample : nat -> list AreaRecord -> list AreaRecord.



Lemma for_batches_length (sample : list AreaRecord) (starts : list nat)
    (results results' : list TravelResult) (w w' : World) :
  (forall i, In i starts -> one_row (routes_service i)) ->
  for_batches routes_service sample starts results w = (Return results', w') ->
  length results'
  <= length results
     + length (flat_map (fun i => iloc_slice sample i (i + batch_size)) starts).
Proof.
  revert results w.
  induction starts as [|i rest IH]; intros results w Hone; simpl.
  - intros [= <- _]. lia.
  - run_py. rewrite process_batch_run, length_app.
    assert (Hrest : forall i', In i' rest -> one_row (routes_service i'))
      by (intros i' Hi'; apply Hone; now right).
    destruct (String.eqb _ "OK").
    + destruct (rm_rows (routes_service i)) as [data_rows|] eqn:Hrows.
      * destruct (process_rows _ data_rows results) as [mid|e] eqn:E;
          [|discriminate].
        intros Hrun. apply IH in Hrun; [|exact Hrest].
        apply process_rows_length in E; [lia|].
        apply (Hone i); [now left | exact Hrows].
      * intros Hrun. apply IH in Hrun; [lia | exact Hrest].
    + intros Hrun. apply IH in Hrun; [lia | exact Hrest].
Qed.


(** X9. When every response has at most one row, a call that gets
    through the batch loop has collected no more results than the sample
    has records. *)
Theorem collected_results_count (origin_coords : Coords)
    (sample_zips : option (list AreaRecord)) (w w' : World)
    (results : list TravelResult) :
  (forall i, one_row (routes_service i)) ->
  collected_results routes_service random_sample origin_coords sample_zips w
    = (Return results, w') ->
  length results <= length (sample_used random_sample sample_zips w).
Proof.
  intros Hone. rewrite collected_results_run. intros Hrun.
  rewrite <- (batches_total_length (sample_used _ _ _)).
  destruct sample_zips as [s|]; [|destruct (zip_gdf (self w)) eqn:Hz].
  - assert (H : for_batches routes_service
                  (sample_used random_sample (Some s) w)
                  (py_range 0 (length (sample_used random_sample (Some s) w))
                     batch_size) [] w = (Return results, w'))
      by (now destruct (zip_gdf (self w))).
    apply for_batches_length in H; [exact H | intros; apply Hone].
  - apply for_batches_length in Hrun; [exact Hrun | intros; apply Hone].
  - discriminate.
Qed.

End ClientResults.

(** ** CalculatorFacade *)

Lemma process_elements_raises (batch : list AreaRecord) (routes : list Route)
    (j : nat) (results : list TravelResult) (e : exn) :
  process_elements batch j routes results = Raise e -> e = IndexError.
Proof.
  rewrite process_elements_run. destruct (existsb _ _); [|discriminate].
  now intros [= <-].
Qed.

Lemma process_rows_raises (batch : list AreaRecord)
    (data_rows : list MatrixRow) (results : list TravelResult) (e : exn) :
  process_rows batch data_rows results = Raise e -> e = IndexError.
Proof.
  revert results. induction data_rows as [|row rest IH]; intros results; simpl.
  - discriminate.
  - destruct (elements row) as [routes|]; [|apply IH]. run_py.
    destruct (process_elements batch 0 routes results) as [mid|e'] eqn:E.
    + apply IH.
    + intros [= <-]. now apply process_elements_raises in E.
Qed.

Section FacadeMore.

Variable geocoding_service : string -> GeocodeResponse.
Variable routes_service : nat -> MatrixResponse.
Variable random_sample : nat -> list AreaRecord -> list AreaRecord.

Lemma for_batches_raises (sample : list AreaRecord) (starts : list nat)
    (results : list TravelResult) (w : World) (e : exn) :
  fst (for_batches routes_service sample starts results w) = Raise e ->
  e = IndexError.
Proof.
  revert results w. induction starts as [|i rest IH]; intros results w; simpl.
  - discriminate.
  - run_py. rewrite process_batch_run.
    destruct (String.eqb _ "OK"); [|apply IH].
    destruct (rm_rows _) as [data_rows|]; [|apply IH].
    destruct (process_rows _ data_rows results) as [mid|e'] eqn:E.
    + apply IH.
    + simpl. intros [= <-]. now apply process_rows_raises in E.
Qed.

(** The value the batch loop returns does not depend on the world. *)
Lemma for_batches_fst (sample : list AreaRecord) (starts : list nat)
    (results : list TravelResult) (w1 w2 : World) :
  fst (for_batches routes_service sample starts results w1)
  = fst (for_batches routes_service sample starts results w2).
Proof.
  revert results w1 w2.
  induction starts as [|i rest IH]; intros results w1 w2; simpl.
  - reflexivity.
  - run_py. rewrite !process_batch_run.
    destruct (String.eqb _ "OK"); [|apply IH].
    destruct (rm_rows _) as [data_rows|]; [|apply IH].
    destruct (process_rows _ data_rows results); [apply IH | reflexivity].
Qed.

Lemma collected_results_fst (origin_coords : Coords)
    (sample_zips : option (list AreaRecord)) (w1 w2 : World) :
  zip_gdf (self w1) = zip_gdf (self w2) ->
  fst (collected_results routes_service random_sample origin_coords
         sample_zips w1)
  = fst (collected_results routes_service random_sample origin_coords
           sample_zips w2).
Proof.
  intros Hz. rewrite !collected_results_run. unfold sample_used.
  rewrite Hz.
  destruct sample_zips as [s|]; destruct (zip_gdf (self w2));
    simpl; try reflexivity; apply for_batches_fst.
Qed.

(** What [calculate_driving_times] does, in every case: it returns [None]
    or raises [IndexError] or [AttributeError], and only prints. *)
Lemma calculate_driving_times_run (origin_coords : Coords)
    (sample_zips : option (list AreaRecord)) (w : World) :
  exists o lines,
    calculate_driving_times routes_service random_sample origin_coords
      sample_zips w = (o, with_lines lines w)
    /\ (o = Return VNone \/ o = Raise IndexError \/ o = Raise AttributeError)
    /\ (o = Return VNone <->
        exists results,
          fst (collected_results routes_service random_sample origin_coords
                 sample_zips w) = Return results).
Proof.
  unfold calculate_driving_times. run_py.
  pose proof (collected_results_run routes_service random_sample
                origin_coords sample_zips w) as Hrun.
  set (sample := sample_used random_sample sample_zips w) in *.
  destruct (for_batches_world routes_service sample
              (py_range 0 (length sample) batch_size) [] w)
    as (lines & Hw & _).
  pose proof (for_batches_raises sample
                (py_range 0 (length sample) batch_size) [] w) as Hraise.
  assert (Hloop :
    collected_results routes_service random_sample origin_coords
      sample_zips w
    = for_batches routes_service sample
        (py_range 0 (length sample) batch_size) [] w
    \/ collected_results routes_service random_sample origin_coords
         sample_zips w = (Raise AttributeError, w)).
  { rewrite Hrun. destruct sample_zips; destruct (zip_gdf (self w)); auto. }
  destruct Hloop as [-> | ->].
  - destruct (for_batches _ _ _ _ w) as [[results|e] w1];
      simpl in Hw; subst w1.
    + exists (Return VNone), lines.
      split; [reflexivity|]. split; [now left|].
      split; [now exists results | reflexivity].
    + exists (Raise e), lines. rewrite (Hraise e eq_refl).
      split; [reflexivity|]. split; [now right; left|].
      split; [discriminate | intros [r H]; discriminate].
  - exists (Raise AttributeError), []. rewrite with_lines_nil.
    split; [reflexivity|]. split; [now right; right|].
    split; [discriminate | intros [r H]; discriminate].
Qed.

Lemma geocode_address_run (address : string) (w : World) :
  let data := geocoding_service (geocode_url address w) in
  exists o w',
    geocode_address geocoding_service address w = (o, w')
    /\ files w' = files w /\ frames w' = frames w /\ self w' = self w
    /\ ((o = Raise IndexError /\ geo_status data = "OK")
        \/ (o = Return (None, None) /\ geo_status data <> "OK")
        \/ (exists coords st, o = Return (Some coords, st) /\ w' = w)
           /\ geo_status data = "OK").
Proof.
  intros data. unfold geocode_address, get_self. run_py.
  fold (geocode_url address w). fold data.
  destruct (String.eqb_spec (geo_status data) "OK") as [Hok|Hno]; simpl.
  - destruct (geo_results data) as [|first rest].
    + eexists _, _. split; [reflexivity|]. repeat split. now left.
    + destruct (location first) as [lat lng].
      eexists _, _. split; [reflexivity|]. repeat split.
      right; right. split; [now eexists _, _ | exact Hok].
  - eexists _, _. split; [reflexivity|]. simpl. repeat split.
    right; left. now split.
Qed.

Lemma run_calculation_run (address : string) (max_time : Z)
    (respect_state : bool) (w : World) :
  let data := geocoding_service (geocode_url address w) in
  exists o w',
    run_calculation geocoding_service routes_service random_sample
      address max_time respect_state w = (o, w')
    /\ ((o = Return geocoding_failed /\ geo_status data <> "OK")
        \/ ((o = Raise IndexError \/ o = Raise AttributeError
             \/ o = Raise TypeError)
            /\ geo_status data = "OK"))
    /\ files w' = files w /\ frames w' = frames w
    /\ calc_results (self w') = calc_results (self w)
    /\ api_key (self w') = api_key (self w)
    /\ zip_gdf (self w') = zip_gdf (self w).
Proof.
  intros data. unfold run_calculation. run_py.
  unfold record_inputs at 1, get_self, set_self. run_py.
  set (w1 := {| frames := frames w |}).
  destruct (geocode_address_run address w1)
    as (o2 & w2 & -> & Hf2 & Hr2 & Hs2 & Hcase).
  change (geocode_url address w1) with (geocode_url address w) in Hcase.
  fold data in Hcase.
  destruct Hcase as [[-> Hst] | [[-> Hst] | [(coords & st & -> & ->) Hst]]].
  - eexists _, _. split; [reflexivity|]. rewrite Hf2, Hr2, Hs2. simpl.
    auto 10.
  - unfold set_origin_state, get_self, set_self. run_py.
    eexists _, _. split; [reflexivity|]. simpl.
    rewrite Hf2, Hr2, Hs2. simpl. auto 10.
  - unfold set_origin_state, get_self, set_self. run_py.
    set (w3 := {| frames := frames w1 |}).
    destruct (calculate_driving_times_run coords None w3)
      as (o4 & lines & -> & Hcase & _).
    destruct Hcase as [-> | [-> | ->]];
      (eexists _, _; split; [reflexivity|]; simpl; auto 10).
Qed.

(** X10. No run gets to the end.  The one thing [run_calculation] ever
    returns is the message of a failed geocoding, and that only when the
    geocoder's status is not ["OK"]; every other run ends in an exception.
    Whatever the outcome, it has written no file, created no frame and not
    assigned [self.results]. *)
Theorem run_calculation_never_completes (address : string) (max_time : Z)
    (respect_state : bool) (w : World) :
  let o := fst (run_calculation geocoding_service routes_service
                  random_sample address max_time respect_state w) in
  let w' := snd (run_calculation geocoding_service routes_service
                   random_sample address max_time respect_state w) in
  (forall message,
      o = Return message ->
      message = geocoding_failed
      /\ geo_status (geocoding_service (geocode_url address w)) <> "OK")
  /\ files w' = files w /\ frames w' = frames w
  /\ calc_results (self w') = calc_results (self w).
Proof.
  destruct (run_calculation_run address max_time respect_state w)
    as (o & w' & Hrun & Ho & Hfiles & Hframes & Hres & _).
  rewrite Hrun. simpl. split; [|now repeat split].
  intros message Hm.
  destruct Ho as [[-> Hst] | [[-> | [-> | ->]] _]]; try discriminate.
  injection Hm as <-. now split.
Qed.

(** X11. When the geocoder finds a candidate and the batch loop goes
    through, the run ends in a [TypeError]: [calculate_driving_times] has
    returned [None], and [filter_results] subscripts it. *)
Theorem run_calculation_type_error (address : string) (max_time : Z)
    (respect_state : bool) (w : World) (first : GeocodeCandidate)
    (rest : list GeocodeCandidate) (results : list TravelResult) :
  let data := geocoding_service (geocode_url address w) in
  geo_status data = "OK" ->
  geo_results data = first :: rest ->
  fst (collected_results routes_service random_sample (location first) None w)
    = Return results ->
  fst (run_calculation geocoding_service routes_service random_sample
         address max_time respect_state w) = Raise TypeError.
Proof.
  intros data Hst Hres Hloop.
  unfold run_calculation. run_py.
  unfold record_inputs at 1, get_self, set_self. run_py.
  set (w1 := {| frames := frames w |}).
  assert (Hgeo : geocode_address geocoding_service address w1
                 = (Return (Some (location first),
                            find_state (address_components first)), w1)).
  { unfold geocode_address, get_self. run_py.
    change (geocoding_service _) with data.
    rewrite Hst, Hres. simpl. now destruct (location first). }
  rewrite Hgeo.
  unfold set_origin_state, get_self, set_self. run_py.
  set (w3 := {| frames := frames w1 |}).
  destruct (calculate_driving_times_run (location first) None w3)
    as (o4 & lines & -> & _ & Hiff).
  assert (Ho4 : o4 = Return VNone).
  { apply Hiff. exists results. rewrite <- Hloop.
    now apply collected_results_fst. }
  subst o4. reflexivity.
Qed.

End FacadeMore.

(** ** ResultFilter *)

Lemma filter_implies_sublist {A} (p q : A -> bool) (l : list A) :
  (forall a, In a l -> p a = true -> q a = true) ->
  sublist (List.filter p l) (List.filter q l).
Proof.
  induction l as [|a l IH]; intros Hpq; simpl.
  - constructor.
  - assert (IH' : sublist (List.filter p l) (List.filter q l))
      by (apply IH; intros b Hb; apply Hpq; now right).
    destruct (p a) eqn:Hp.
    + rewrite (Hpq a (or_introl eq_refl) Hp). now apply sublist_skip.
    + destruct (q a); [now apply sublist_cons | exact IH'].
Qed.

Lemma filter_idempotent {A} (p : A -> bool) (l : list A) :
  List.filter p (List.filter p l) = List.filter p l.
Proof.
  rewrite filter_twice. apply List.filter_ext. intros a. now destruct (p a).
Qed.

Lemma filter_none {A} (p : A -> bool) (l : list A) :
  (forall a, In a l -> p a = false) -> List.filter p l = [].
Proof.
  induction l as [|a l IH]; intros Hp; simpl; [reflexivity|].
  rewrite (Hp a (or_introl eq_refl)). apply IH. intros b Hb. apply Hp.
  now right.
Qed.

(** X12. A lower threshold, or the state flag set where it was not, only
    takes rows away: the frame [filter_results] returns for the stricter
    setting is a subsequence of the frame it returns for the laxer one. *)
Theorem filter_results_narrows (w : World) (l : ref) (df : DataFrame)
    (t1 t2 : Q) (r1 r2 : bool) (origin : option string) :
  frames w !! l = Some df ->
  (t1 <= t2)%Q ->
  (r2 = true -> r1 = true) ->
  exists l1 w1 f1 l2 w2 f2,
    filter_results (VRef l) t1 r1 origin w = (Return (VRef l1), w1)
    /\ frames w1 !! l1 = Some f1
    /\ filter_results (VRef l) t2 r2 origin w = (Return (VRef l2), w2)
    /\ frames w2 !! l2 = Some f2
    /\ sublist f1 f2.
Proof.
  intros Hl Ht Hr.
  destruct (filter_results_run w l df t1 r1 origin Hl)
    as (l1 & w1 & Hrun1 & Hnew1 & _).
  destruct (filter_results_run w l df t2 r2 origin Hl)
    as (l2 & w2 & Hrun2 & Hnew2 & _).
  eexists l1, w1, _, l2, w2, _.
  repeat (split; [eassumption|]).
  apply filter_implies_sublist. intros r _.
  rewrite !keeps_spec. intros [Hle Hst]. split.
  - eapply Qle_trans; eauto.
  - destruct Hst as [-> | Hst]; [|now right].
    left. destruct r2; [now specialize (Hr eq_refl) | reflexivity].
Qed.

(** X13. Filtering what [filter_results] returned once more, with the
    same settings, returns a frame with the same rows. *)
Theorem filter_results_idempotent (w : World) (l : ref) (df : DataFrame)
    (max_time : Q) (respect : bool) (origin : option string) :
  frames w !! l = Some df ->
  exists l1 w1 l2 w2 filtered,
    filter_results (VRef l) max_time respect origin w = (Return (VRef l1), w1)
    /\ frames w1 !! l1 = Some filtered
    /\ filter_results (VRef l1) max_time respect origin w1
       = (Return (VRef l2), w2)
    /\ frames w2 !! l2 = Some filtered.
Proof.
  intros Hl.
  destruct (filter_results_run w l df max_time respect origin Hl)
    as (l1 & w1 & Hrun1 & Hnew1 & _).
  destruct (filter_results_run w1 l1 _ max_time respect origin Hnew1)
    as (l2 & w2 & Hrun2 & Hnew2 & _).
  eexists l1, w1, l2, w2, _.
  split; [exact Hrun1|]. split; [exact Hnew1|]. split; [exact Hrun2|].
  now rewrite filter_idempotent in Hnew2.
Qed.

(** X14. With the state flag set, a frame none of whose rows has the
    origin's state is filtered down to nothing, whatever the threshold; so
    is every frame when the geocoder found no state. *)
Theorem filter_results_other_state (w : World) (l : ref) (df : DataFrame)
    (max_time : Q) (origin : option string) :
  frames w !! l = Some df ->
  (forall r, In r df -> origin <> Some (state r)) ->
  exists l' w',
    filter_results (VRef l) max_time true origin w = (Return (VRef l'), w')
    /\ frames w' !! l' = Some [].
Proof.
  intros Hl Hst.
  destruct (filter_results_run w l df max_time true origin Hl)
    as (l' & w' & Hrun & Hnew & _).
  exists l', w'. split; [exact Hrun|].
  rewrite Hnew. f_equal. apply filter_none. intros r Hr.
  destruct (keeps max_time true origin r) eqn:E; [|reflexivity].
  apply keeps_spec in E. destruct E as [_ [E|E]]; [discriminate|].
  now apply Hst in E.
Qed.

(** ** The colour ramp *)

Lemma Qmax2_upper (a b : Q) :
  (a <= Qmax2 a b)%Q /\ (b <= Qmax2 a b)%Q.
Proof.
  unfold Qmax2. destruct (Qle_bool a b) eqn:E.
  - apply Qle_bool_iff in E. split; [exact E | apply Qle_refl].
  - split; [apply Qle_refl|].
    apply Qlt_le_weak, Qnot_le_lt. intros H.
    apply Qle_bool_iff in H. congruence.
Qed.

Lemma fold_Qmax2_max (rest : list Q) (q : Q) :
  (fold_left Qmax2 rest q = q \/ In (fold_left Qmax2 rest q) rest)
  /\ (q <= fold_left Qmax2 rest q)%Q
  /\ Forall (fun t => (t <= fold_left Qmax2 rest q)%Q) rest.
Proof.
  revert q. induction rest as [|t rest IH]; intros q; simpl.
  - split; [now left|]. split; [apply Qle_refl | constructor].
  - destruct (IH (Qmax2 q t)) as (Hin & Hle & Hall).
    destruct (Qmax2_upper q t) as [Hq Ht].
    split; [|split].
    + destruct Hin as [Hin|Hin]; [|now right; right].
      rewrite Hin. unfold Qmax2. destruct (Qle_bool q t); auto.
    + eapply Qle_trans; eauto.
    + constructor; [eapply Qle_trans; eauto | exact Hall].
Qed.

(** On a column that is not empty, [series_max] is one of the column's
    values and none of them is above it. *)
Lemma series_max_is_max (column : list Q) :
  column <> [] ->
  In (series_max column) column
  /\ Forall (fun t => (t <= series_max column)%Q) column.
Proof.
  destruct column as [|q rest]; [contradiction|]. intros _. simpl.
  destruct (fold_Qmax2_max rest q) as (Hin & Hle & Hall).
  split; [destruct Hin as [->|Hin]; auto|].
  constructor; assumption.
Qed.

Lemma truncate_proper (p q : Q) : (p == q)%Q -> truncate p = truncate q.
Proof.
  intros Heq. apply Z.le_antisymm; apply truncate_le_mono; rewrite Heq;
    apply Qle_refl.
Qed.

Lemma get_color_for_time_nonzero (time max_time : Q) :
  ~ (max_time == 0)%Q ->
  get_color_for_time time max_time =
    Return ("#" +:+ format_02x
                      (Z.min 255 (truncate (255 * (time / max_time))%Q))
                +:+ format_02x
                      (Z.min 255 (truncate (255 * (1 - time / max_time))%Q))
                +:+ format_02x 0).
Proof.
  intros Hm. unfold get_color_for_time. run_py.
  now rewrite color_channels_nonzero.
Qed.

(** The two ends of the ramp, where the quotient is exactly one or zero. *)
Lemma get_color_for_time_exact (time max_time : Q) :
  ~ (max_time == 0)%Q ->
  ((time == max_time)%Q ->
   get_color_for_time time max_time = Return "#ff0000")
  /\ ((time == 0)%Q ->
      get_color_for_time time max_time = Return "#00ff00").
Proof.
  intros Hnz.
  split; intros Ht; rewrite get_color_for_time_nonzero by exact Hnz.
  - rewrite (truncate_proper (255 * (time / max_time)) 255)
      by (rewrite Ht; field; exact Hnz).
    rewrite (truncate_proper (255 * (1 - time / max_time)) 0)
      by (rewrite Ht; field; exact Hnz).
    reflexivity.
  - rewrite (truncate_proper (255 * (time / max_time)) 0)
      by (rewrite Ht; field; exact Hnz).
    rewrite (truncate_proper (255 * (1 - time / max_time)) 255)
      by (rewrite Ht; field; exact Hnz).
    reflexivity.
Qed.

(** X15. For a positive [max_time], the colour of a duration equal to
    [max_time] is pure red, ["#ff0000"], and the colour of a zero duration
    is pure green, ["#00ff00"]. *)
Theorem get_color_for_time_ends (time max_time : Q) :
  (0 < max_time)%Q ->
  ((time == max_time)%Q ->
   get_color_for_time time max_time = Return "#ff0000")
  /\ ((time == 0)%Q ->
      get_color_for_time time max_time = Return "#00ff00").
Proof.
  intros Hm. apply get_color_for_time_exact.
  intros E. rewrite E in Hm. now apply Qlt_irrefl in Hm.
Qed.

(** ** MapRenderer *)

Lemma add_regions_drawn (gdf_rows : list TravelResult) (max_time : Q)
    (m : FoliumMap) :
  ~ (max_time == 0)%Q ->
  exists regions,
    add_regions gdf_rows max_time m =
      Return {| map_location := map_location m; zoom_start := zoom_start m;
                markers := markers m;
                overlays := overlays m ++ regions |}
    /\ Forall2 (drawn_for max_time) gdf_rows regions.
Proof.
  intros Hm. revert m.
  induction gdf_rows as [|row rest IH]; intros m; cbn [add_regions].
  - exists []. rewrite app_nil_r. split; [now destruct m | constructor].
  - destruct (get_color_for_time_exact (driving_time_minutes row) max_time Hm)
      as [Hred Hgreen].
    destruct (get_color_for_time (driving_time_minutes row) max_time)
      as [color|e] eqn:Hcolor.
    + run_py.
      match goal with
      | |- context [add_regions rest max_time (add_geojson m ?g)] =>
          destruct (IH (add_geojson m g)) as (regions & Hrun & Hdrawn);
          exists (g :: regions)
      end.
      rewrite Hrun. unfold add_geojson.
      cbn [map_location zoom_start markers overlays].
      rewrite <- app_assoc. split; [reflexivity|].
      constructor; [|exact Hdrawn].
      unfold drawn_for.
      cbn [gj_geometry gj_tooltip gj_color gj_weight gj_fillOpacity
           gj_fillColor].
      repeat (split; [reflexivity|]). split.
      * intros Ht. specialize (Hred Ht). congruence.
      * intros Ht. specialize (Hgreen Ht). congruence.
    + rewrite get_color_for_time_nonzero in Hcolor by exact Hm. discriminate.
Qed.

(** What [create_map] does on a frame it can colour. *)
Lemma create_map_run (w : World) (l : ref) (df : DataFrame)
    (origin_coords : Coords) :
  frames w !! l = Some df ->
  df = [] \/ ~ (series_max (map driving_time_minutes df) == 0)%Q ->
  exists w' m,
    create_map (VRef l) origin_coords w = (Return map_filename, w')
    /\ files w' = <[map_filename := HtmlMap m]> (files w)
    /\ map_location m = origin_coords
    /\ markers m = [origin_marker origin_coords]
    /\ Forall2 (drawn_for (series_max (map driving_time_minutes df))) df
         (overlays m)
    /\ (forall k v, frames w !! k = Some v -> frames w' !! k = Some v)
    /\ console w' = console w /\ self w' = self w.
Proof.
  intros Hl Hok. unfold create_map. run_py.
  rewrite (len_allocated w l df Hl).
  destruct df as [|row rest].
  - eexists _, _. split; [reflexivity|]. simpl.
    repeat (split; [reflexivity|]). split; [constructor|]. auto.
  - destruct Hok as [Hok|Hok]; [discriminate|].
    cbn [length Nat.ltb Nat.leb].
    rewrite (deref_allocated w l _ Hl).
    unfold alloc at 1.
    rewrite (deref_allocated _ _ (row :: rest));
      [|apply allocated_lookup_new].
    match goal with
    | |- context [add_regions (row :: rest) ?t ?m0] =>
        destruct (add_regions_drawn (row :: rest) t m0 Hok)
          as (regions & Hrun & Hdrawn)
    end.
    rewrite Hrun.
    eexists _, _. split; [reflexivity|]. simpl.
    repeat (split; [reflexivity|]). split; [exact Hdrawn|].
    split; [|now split].
    intros k v Hk. now apply (allocated_lookup_old _ _ w).
Qed.

Lemma drawn_for_maps (max_time : Q) (df : DataFrame) (regions : list GeoJson) :
  Forall2 (drawn_for max_time) df regions ->
  length regions = length df
  /\ map gj_geometry regions = map geometry df
  /\ map gj_tooltip regions
     = map (fun r => (zip_code r, driving_time_minutes r)) df.
Proof.
  induction 1 as [|row g df regions Hg _ IH]; [now simpl|].
  destruct IH as (Hlen & Hgeo & Htip).
  destruct Hg as (Hg1 & Hg2 & _). simpl.
  now rewrite Hlen, Hgeo, Htip, Hg1, Hg2.
Qed.

Lemma drawn_for_In (max_time : Q) (df : DataFrame) (regions : list GeoJson)
    (row : TravelResult) :
  Forall2 (drawn_for max_time) df regions -> In row df ->
  exists g, In g regions /\ drawn_for max_time row g.
Proof.
  induction 1 as [|row' g df regions Hg _ IH]; [contradiction|].
  intros [<-|Hin].
  - exists g. split; [now left | exact Hg].
  - destruct (IH Hin) as (g' & Hin' & Hg'). exists g'.
    split; [now right | exact Hg'].
Qed.

(** X17. On a frame that is not empty, of driving times none of which is
    negative and the largest of which is not zero, [create_map] saves,
    under [driving_time_radius.html] and over whatever was there, a map
    with the origin marker and one region per row of the frame, in the
    order of the rows, each with its row's geometry and, as tooltip, its
    row's zip code and time.  The frame it was given, every other frame and
    every other file are as they were. *)
Theorem create_map_regions (w : World) (l : ref) (df : DataFrame)
    (origin_coords : Coords) :
  frames w !! l = Some df ->
  df <> [] ->
  Forall (fun r => (0 <= driving_time_minutes r)%Q) df ->
  ~ (series_max (map driving_time_minutes df) == 0)%Q ->
  exists w' m,
    create_map (VRef l) origin_coords w = (Return map_filename, w')
    /\ files w' !! map_filename = Some (HtmlMap m)
    /\ map_location m = origin_coords
    /\ markers m = [origin_marker origin_coords]
    /\ length (overlays m) = length df
    /\ map gj_geometry (overlays m) = map geometry df
    /\ map gj_tooltip (overlays m)
       = map (fun r => (zip_code r, driving_time_minutes r)) df
    /\ (forall name, name <> map_filename ->
                     files w' !! name = files w !! name)
    /\ (forall k v, frames w !! k = Some v -> frames w' !! k = Some v).
Proof.
  intros Hl Hne _ Hmax.
  destruct (create_map_run w l df origin_coords Hl (or_intror Hmax))
    as (w' & m & Hrun & Hfiles & Hloc & Hmarkers & Hdrawn & Hframes & _).
  destruct (drawn_for_maps _ _ _ Hdrawn) as (Hlen & Hgeo & Htip).
  exists w', m.
  split; [exact Hrun|]. rewrite Hfiles.
  split; [apply lookup_insert_eq|].
  repeat (split; [assumption|]).
  split; [|exact Hframes].
  intros name Hname. now rewrite lookup_insert_ne.
Qed.

(** X18. On such a frame, in the map [create_map] saves the region of
    every row whose time is the largest is filled with pure red,
    ["#ff0000"], and the region of every row whose time is zero with pure
    green, ["#00ff00"]; at least one region is pure red. *)
Theorem create_map_colours (w : World) (l : ref) (df : DataFrame)
    (origin_coords : Coords) :
  frames w !! l = Some df ->
  df <> [] ->
  Forall (fun r => (0 <= driving_time_minutes r)%Q) df ->
  ~ (series_max (map driving_time_minutes df) == 0)%Q ->
  exists w' m,
    create_map (VRef l) origin_coords w = (Return map_filename, w')
    /\ files w' !! map_filename = Some (HtmlMap m)
    /\ Forall2
         (fun row g =>
            ((driving_time_minutes row
              == series_max (map driving_time_minutes df))%Q ->
             gj_fillColor g = "#ff0000")
            /\ ((driving_time_minutes row == 0)%Q ->
                gj_fillColor g = "#00ff00"))
         df (overlays m)
    /\ Exists (fun g => gj_fillColor g = "#ff0000") (overlays m).
Proof.
  intros Hl Hne _ Hmax.
  destruct (create_map_run w l df origin_coords Hl (or_intror Hmax))
    as (w' & m & Hrun & Hfiles & _ & _ & Hdrawn & _).
  exists w', m.
  split; [exact Hrun|]. rewrite Hfiles.
  split; [apply lookup_insert_eq|]. split.
  - eapply Forall2_impl; [exact Hdrawn|].
    intros row g (_ & _ & _ & _ & _ & Hred & Hgreen). now split.
  - destruct (series_max_is_max (map driving_time_minutes df)) as [Hin _].
    { destruct df; [contradiction | discriminate]. }
    apply in_map_iff in Hin. destruct Hin as (slowest & Hslow & Hin).
    destruct (drawn_for_In _ _ _ _ Hdrawn Hin)
      as (g & Hg & (_ & _ & _ & _ & _ & Hred & _)).
    apply List.Exists_exists. exists g. split; [exact Hg|].
    apply Hred. rewrite Hslow. reflexivity.
Qed.

(** ** ResultExporter *)

(** What [export_results] does on a frame. *)
Lemma export_results_run (w : World) (l : ref) (df : DataFrame)
    (filename : string) :
  frames w !! l = Some df ->
  exists w',
    export_results (VRef l) filename w
      = (Return (if df is [] then None else Some filename), w')
    /\ files w' = (if df is [] then files w
                   else <[filename := CsvFile (exported_table df)]> (files w))
    /\ (forall k v, frames w !! k = Some v -> frames w' !! k = Some v)
    /\ console w' = console w /\ self w' = self w.
Proof.
  intros Hl. unfold export_results. run_py.
  rewrite (len_allocated w l df Hl).
  destruct df as [|row rest].
  - eexists. split; [reflexivity|]. simpl. repeat split. auto.
  - cbn [length Nat.ltb Nat.leb].
    rewrite (deref_allocated w l _ Hl).
    unfold alloc at 1.
    rewrite (deref_allocated _ _ (row :: rest));
      [|apply allocated_lookup_new].
    rewrite drop_geometry.
    eexists. split; [reflexivity|]. simpl.
    split; [reflexivity|]. split; [|now split].
    intros k v Hk. now apply (allocated_lookup_old _ _ w).
Qed.

(** X19. [export_results] works on a copy: the frame it was given and
    every other frame hold the rows they held, no file but the one it was
    asked to write is touched, and nothing is printed or assigned. *)
Theorem export_results_effects (w : World) (l : ref) (df : DataFrame)
    (filename : string) :
  frames w !! l = Some df ->
  let w' := snd (export_results (VRef l) filename w) in
  frames w' !! l = Some df
  /\ (forall k v, frames w !! k = Some v -> frames w' !! k = Some v)
  /\ (forall name, name <> filename -> files w' !! name = files w !! name)
  /\ console w' = console w /\ self w' = self w.
Proof.
  intros Hl.
  destruct (export_results_run w l df filename Hl)
    as (w' & Hrun & Hfiles & Hframes & Hconsole & Hself).
  rewrite Hrun. simpl.
  split; [now apply Hframes|]. split; [exact Hframes|].
  split; [|now split].
  intros name Hname. rewrite Hfiles.
  destruct df; [reflexivity | now rewrite lookup_insert_ne].
Qed.

(** ** The end of a run *)

Section FinishRun.

Variable geocoding_service : string -> GeocodeResponse.
Variable routes_service : nat -> MatrixResponse.
Variable random_sample : nat -> list AreaRecord -> list AreaRecord.

(** [finish_run] is the end of [run_calculation]. *)
Lemma run_calculation_finish (address : string) (max_time : Z)
    (respect_state : bool) :
  run_calculation geocoding_service routes_service random_sample
    address max_time respect_state
  = (record_inputs address max_time respect_state;;
     '(origin_coords, st) ← geocode_address geocoding_service address;
     set_origin_state st;;
     match origin_coords with
     | None => mret "Geocoding failed. Please check the address."
     | Some origin_coords =>
         driving_results ← calculate_driving_times routes_service
                             random_sample origin_coords None;
         finish_run driving_results origin_coords max_time respect_state
     end).
Proof. reflexivity. Qed.

End FinishRun.

Lemma map_csv_names : map_filename <> default_csv.
Proof. discriminate. Qed.

(** X20. Were they handed a frame, lines 227 to 240 of [run_calculation]
    would do what the run is for.  With [kept] the rows within [max_time]
    (and of the origin's state, when asked), none of them of a negative
    time, and provided [kept] is empty or its largest time is not zero:
    [self.results] is a new frame holding [kept]; the map file holds the
    origin marker and one region per row of [kept], with the row's
    geometry; the export holds one row per row of [kept], and is not
    written at all when [kept] is empty; the message returned counts the
    rows of [kept]; the frame handed in and all other files are as they
    were. *)
Theorem finish_run_report (w : World) (l : ref) (df : DataFrame)
    (origin_coords : Coords) (max_time : Z) (respect_state : bool) :
  let kept := List.filter (keeps (inject_Z max_time) respect_state
                             (origin_state (self w))) df in
  frames w !! l = Some df ->
  Forall (fun r => (0 <= driving_time_minutes r)%Q) kept ->
  kept = [] \/ ~ (series_max (map driving_time_minutes kept) == 0)%Q ->
  exists w' l' m,
    finish_run (VRef l) origin_coords max_time respect_state w
      = (Return (analysis_complete (length kept) max_time), w')
    /\ calc_results (self w') = VRef l'
    /\ frames w' !! l' = Some kept
    /\ frames w' !! l = Some df
    /\ files w' !! map_filename = Some (HtmlMap m)
    /\ markers m = [origin_marker origin_coords]
    /\ map gj_geometry (overlays m) = map geometry kept
    /\ files w' !! default_csv
       = (if kept is [] then files w !! default_csv
          else Some (CsvFile (exported_table kept)))
    /\ (forall name, name <> map_filename -> name <> default_csv ->
                     files w' !! name = files w !! name).
Proof.
  intros kept Hl _ Hok. unfold finish_run, get_self. run_py.
  destruct (filter_results_run w l df (inject_Z max_time) respect_state
              (origin_state (self w)) Hl)
    as (l1 & w1 & Hrun1 & Hnew1 & _ & Hold1 & Hfiles1 & _ & _).
  fold kept in Hnew1. rewrite Hrun1.
  unfold set_results, get_self, set_self. run_py.
  set (w2 := {| frames := frames w1 |}).
  destruct (create_map_run w2 l1 kept origin_coords Hnew1 Hok)
    as (w3 & m & Hrun3 & Hfiles3 & _ & Hmarkers & Hdrawn & Hold3 & _ & Hself3).
  rewrite Hrun3.
  destruct (export_results_run w3 l1 kept default_csv (Hold3 _ _ Hnew1))
    as (w4 & Hrun4 & Hfiles4 & Hold4 & _ & Hself4).
  rewrite Hrun4.
  rewrite (len_allocated w4 l1 kept) by (apply Hold4, Hold3, Hnew1).
  destruct (drawn_for_maps _ _ _ Hdrawn) as (_ & Hgeo & _).
  exists w4, l1, m. split; [reflexivity|].
  split; [now rewrite Hself4, Hself3|].
  split; [apply Hold4, Hold3, Hnew1|].
  split; [apply Hold4, Hold3; simpl; apply Hold1, Hl|].
  rewrite Hfiles4, Hfiles3. simpl. rewrite Hfiles1.
  pose proof map_csv_names as Hnames.
  destruct kept.
  - split; [apply lookup_insert_eq|].
    split; [exact Hmarkers|]. split; [exact Hgeo|].
    split; [now rewrite lookup_insert_ne|].
    intros name Hn _. now rewrite lookup_insert_ne.
  - split; [rewrite lookup_insert_ne by auto; apply lookup_insert_eq|].
    split; [exact Hmarkers|]. split; [exact Hgeo|].
    split; [apply lookup_insert_eq|].
    intros name Hn1 Hn2. now rewrite !lookup_insert_ne by auto.
Qed.

(** ** Loading the dataset *)

Ltac run_gui :=
  repeat (unfold mbind, mret, gui_bind, gui_ret, call, get_form, status_set,
          progress_set, webbrowser_open, thread_run; cbn beta iota).

Section DatasetProperties.

Variable read_file : FileContent -> outcome (list AreaRecord).

(** What [load_data] does, in its three cases. *)
Lemma load_data_run (w : World) :
  load_data read_file w =
    match files w !! dataset_filename with
    | None => (Return false, with_lines download_lines w)
    | Some content =>
        match read_file content with
        | Return gdf =>
            (Return true,
             with_zip_gdf gdf (with_lines ["Loading zip code boundaries..."] w))
        | Raise e =>
            (Raise e, with_lines ["Loading zip code boundaries..."] w)
        end
    end.
Proof.
  unfold load_data, path_lookup. run_py.
  destruct (files w !! dataset_filename) as [content|].
  - unfold print. cbn beta iota.
    destruct (read_file content) as [gdf|e]; reflexivity.
  - unfold print, printed, with_lines, download_lines. cbn.
    now rewrite <- app_assoc.
Qed.

(** X21. Without a file [zip_codes.geojson], [load_data] returns [False]
    after two lines on the console and assigns nothing: a dataset loaded
    earlier stays.  With the file, it returns [True] once [zip_gdf] holds
    what [read_file] made of it; and when [read_file] raises, so does
    [load_data], with [zip_gdf] as it was.  In no case is a file or a
    frame written. *)
Theorem load_data_outcomes (w : World) :
  let o := fst (load_data read_file w) in
  let w' := snd (load_data read_file w) in
  files w' = files w /\ frames w' = frames w
  /\ (files w !! dataset_filename = None ->
      o = Return false /\ self w' = self w
      /\ console w' = console w ++ download_lines)
  /\ (forall content gdf,
        files w !! dataset_filename = Some content ->
        read_file content = Return gdf ->
        o = Return true /\ zip_gdf (self w') = Some gdf
        /\ api_key (self w') = api_key (self w)
        /\ calc_results (self w') = calc_results (self w))
  /\ (forall content e,
        files w !! dataset_filename = Some content ->
        read_file content = Raise e ->
        o = Raise e /\ self w' = self w).
Proof.
  cbv zeta. rewrite load_data_run.
  destruct (files w !! dataset_filename) as [content|] eqn:Hfile.
  - destruct (read_file content) as [gdf|e] eqn:Hread; simpl;
      (split; [reflexivity|]; split; [reflexivity|]);
      (split; [discriminate|]); split.
    + intros c g [= <-]. rewrite Hread. now intros [= <-].
    + intros c e [= <-]. rewrite Hread. discriminate.
    + intros c g [= <-]. rewrite Hread. discriminate.
    + intros c e' [= <-]. rewrite Hread. now intros [= <-].
  - simpl. split; [reflexivity|]. split; [reflexivity|].
    split; [now intros _|]. split; discriminate.
Qed.

End DatasetProperties.

(** ** The form *)

Section FormProperties.

Variable read_file : FileContent -> outcome (list AreaRecord).
Variable geocoding_service : string -> GeocodeResponse.
Variable routes_service : nat -> MatrixResponse.
Variable random_sample : nat -> list AreaRecord -> list AreaRecord.

(** [App.calculate] once its three checks have passed. *)
Lemma app_calculate_started (f : Form) (w : World) (gdf : list AreaRecord) :
  api_key_var f <> "" -> address_var f <> "" ->
  zip_gdf (self w) = Some gdf ->
  app_calculate geocoding_service routes_service random_sample (f, w)
  = thread_run
      (calculate_thread geocoding_service routes_service random_sample)
      (with_status "Calculating..." (with_progress true f),
       snd (set_api_key (Some (api_key_var f)) w)).
Proof.
  intros Hk Ha Hz. unfold app_calculate. run_gui. cbn [fst snd].
  apply String.eqb_neq in Hk, Ha. rewrite Hk, Ha.
  unfold get_self at 1. cbn [fst snd]. rewrite Hz. reflexivity.
Qed.


End FormProperties.

Section FormMore.

Variable read_file : FileContent -> outcome (list AreaRecord).
Variable geocoding_service : string -> GeocodeResponse.
Variable routes_service : nat -> MatrixResponse.
Variable random_sample : nat -> list AreaRecord -> list AreaRecord.

(** X23. With key, address and dataset in place and a geocoder that
    reports ["OK"], [App.calculate] never gets to report: the exception
    [run_calculation] raises ends the thread, the status line keeps saying
    "Calculating...", the progress bar keeps running, no file is written
    and no page is opened. *)
Theorem app_calculate_stuck (f : Form) (w : World) (gdf : list AreaRecord) :
  api_key_var f <> "" -> address_var f <> "" ->
  zip_gdf (self w) = Some gdf ->
  (forall url, geo_status (geocoding_service url) = "OK") ->
  exists w',
    app_calculate geocoding_service routes_service random_sample (f, w)
      = (Return tt, (with_status "Calculating..." (with_progress true f), w'))
    /\ files w' = files w /\ frames w' = frames w
    /\ calc_results (self w') = calc_results (self w).
Proof.
  intros Hk Ha Hz Hst.
  rewrite (app_calculate_started geocoding_service routes_service
             random_sample f w gdf Hk Ha Hz).
  unfold calculate_thread. run_gui.
  cbn [fst snd with_status with_progress address_var max_time_var
       respect_state_var].
  set (w0 := snd (set_api_key _ w)).
  destruct (run_calculation_run geocoding_service routes_service
              random_sample (address_var f) (max_time_var f)
              (respect_state_var f) w0)
    as (o & w1 & Hrun & Ho & Hfiles & Hframes & Hres & _).
  rewrite Hrun.
  destruct Ho as [[_ Hno]|[Ho _]]; [now contradiction Hno|].
  exists w1.
  split; [|now rewrite Hfiles, Hframes, Hres].
  destruct Ho as [-> | [-> | ->]]; reflexivity.
Qed.

(** X24. [App.load_data] ends with "Failed to load data. ..." in the
    status line when there is no dataset file, and with "Data loaded
    successfully" and the dataset in [zip_gdf] when the file is read; in
    both cases the progress bar is stopped.  When reading the file raises,
    the thread ends there: the status line keeps saying "Loading data..."
    and the progress bar keeps running. *)
Theorem app_load_data_outcomes (f : Form) (w : World) :
  let f' := fst (snd (app_load_data read_file (f, w))) in
  let w' := snd (snd (app_load_data read_file (f, w))) in
  fst (app_load_data read_file (f, w)) = Return tt
  /\ opened f' = opened f /\ files w' = files w
  /\ (files w !! dataset_filename = None ->
      status_var f'
      = "Failed to load data. Please check the console for instructions."
      /\ progress_running f' = false
      /\ zip_gdf (self w') = zip_gdf (self w))
  /\ (forall content gdf,
        files w !! dataset_filename = Some content ->
        read_file content = Return gdf ->
        status_var f' = "Data loaded successfully"
        /\ progress_running f' = false
        /\ zip_gdf (self w') = Some gdf)
  /\ (forall content e,
        files w !! dataset_filename = Some content ->
        read_file content = Raise e ->
        status_var f' = "Loading data..."
        /\ progress_running f' = true
        /\ zip_gdf (self w') = zip_gdf (self w)).
Proof.
  cbv zeta. unfold app_load_data, load_thread. run_gui. cbn [fst snd].
  rewrite load_data_run.
  destruct (files w !! dataset_filename) as [content|] eqn:Hfile.
  - destruct (read_file content) as [gdf|e] eqn:Hread; cbn;
      (split; [reflexivity|]; split; [reflexivity|]; split; [reflexivity|]);
      (split; [discriminate|]); split.
    + intros c g [= <-]. rewrite Hread. now intros [= <-].
    + intros c e [= <-]. rewrite Hread. discriminate.
    + intros c g [= <-]. rewrite Hread. discriminate.
    + intros c e' [= <-]. now rewrite Hread.
  - cbn. split; [reflexivity|]. split; [reflexivity|]. split; [reflexivity|].
    split; [now intros _|]. split; discriminate.
Qed.


End FormMore.

(** * The further properties on concrete runs *)

Lemma py_range_elements_witness :
  0 < 25
  /\ (forall i, In i (py_range 0 60 25)
                <-> 0 <= i < 60 /\ (i - 0) mod 25 = 0)
  /\ StronglySorted lt (py_range 0 60 25).
Proof. split; [lia|]. apply py_range_elements. lia. Defined.

Lemma collected_results_provenance_witness :
  collected_results (fun _ => one_duration) (fun _ gdf => gdf)
    ((389 # 10)%Q, (-770 # 10)%Q) (Some [arlington]) empty_world
    = (Return [travel_result arlington 900], empty_world)
  /\ Forall (fun r =>
               state r = "VA"
               /\ exists rec secs,
                    In rec [arlington]
                    /\ zip_code r = ZCTA5 rec
                    /\ geometry r = area_geometry rec
                    /\ driving_time_minutes r = (secs / 60)%Q)
       [travel_result arlington 900].
Proof.
  split; [reflexivity|].
  apply (collected_results_provenance (fun _ => one_duration)
           (fun _ gdf => gdf) ((389 # 10)%Q, (-770 # 10)%Q)
           (Some [arlington]) empty_world empty_world).
  reflexivity.
Defined.


Lemma collected_results_count_witness :
  (forall i : nat, one_row ((fun _ => one_duration) i))
  /\ collected_results (fun _ => one_duration) (fun _ gdf => gdf)
       ((389 # 10)%Q, (-770 # 10)%Q) (Some [arlington]) empty_world
     = (Return [travel_result arlington 900], empty_world)
  /\ length [travel_result arlington 900] <= length [arlington].
Proof.
  assert (Hone : forall i : nat, one_row ((fun _ => one_duration) i)).
  { intros i data_rows [= <-]. simpl. lia. }
  split; [exact Hone|]. split; [reflexivity|].
  apply (collected_results_count (fun _ => one_duration) (fun _ gdf => gdf)
           ((389 # 10)%Q, (-770 # 10)%Q) (Some [arlington])
           empty_world empty_world _ Hone).
  reflexivity.
Defined.

Lemma run_calculation_type_error_witness :
  geo_status one_candidate = "OK"
  /\ geo_results one_candidate = [clarendon]
  /\ fst (collected_results (fun _ => one_duration) (fun _ gdf => gdf)
            (location clarendon) None loaded_world)
     = Return [travel_result arlington 900]
  /\ fst (run_calculation (fun _ => one_candidate) (fun _ => one_duration)
            (fun _ gdf => gdf) "2100 Clarendon Blvd" 30 false loaded_world)
     = Raise TypeError.
Proof.
  split; [reflexivity|]. split; [reflexivity|]. split; [reflexivity|].
  apply (run_calculation_type_error (fun _ => one_candidate)
           (fun _ => one_duration) (fun _ gdf => gdf) "2100 Clarendon Blvd"
           30 false loaded_world clarendon [] [travel_result arlington 900]);
    reflexivity.
Defined.

Lemma filter_results_narrows_witness :
  frames example_world !! 1%positive
    = Some (example_results no_geometry no_geometry)
  /\ (30 <= 60)%Q
  /\ (false = true -> true = true)
  /\ exists l1 w1 f1 l2 w2 f2,
       filter_results (VRef 1%positive) 30 true (Some "VA") example_world
         = (Return (VRef l1), w1)
       /\ frames w1 !! l1 = Some f1
       /\ filter_results (VRef 1%positive) 60 false (Some "VA") example_world
          = (Return (VRef l2), w2)
       /\ frames w2 !! l2 = Some f2
       /\ sublist f1 f2.
Proof.
  split; [vm_compute; reflexivity|]. split; [discriminate|].
  split; [reflexivity|].
  apply (filter_results_narrows example_world 1%positive
           (example_results no_geometry no_geometry));
    [vm_compute; reflexivity | discriminate | reflexivity].
Defined.

Lemma filter_results_idempotent_witness :
  frames example_world !! 1%positive
    = Some (example_results no_geometry no_geometry)
  /\ exists l1 w1 l2 w2 filtered,
       filter_results (VRef 1%positive) 30 true (Some "VA") example_world
         = (Return (VRef l1), w1)
       /\ frames w1 !! l1 = Some filtered
       /\ filter_results (VRef l1) 30 true (Some "VA") w1
          = (Return (VRef l2), w2)
       /\ frames w2 !! l2 = Some filtered.
Proof.
  split; [vm_compute; reflexivity|].
  apply (filter_results_idempotent example_world 1%positive
           (example_results no_geometry no_geometry)).
  vm_compute; reflexivity.
Defined.

Lemma filter_results_other_state_witness :
  frames example_world !! 1%positive
    = Some (example_results no_geometry no_geometry)
  /\ (forall r, In r (example_results no_geometry no_geometry) ->
                Some "MD" <> Some (state r))
  /\ exists l' w',
       filter_results (VRef 1%positive) 60 true (Some "MD") example_world
         = (Return (VRef l'), w')
       /\ frames w' !! l' = Some [].
Proof.
  assert (Hst : forall r, In r (example_results no_geometry no_geometry) ->
                          Some "MD" <> Some (state r)).
  { intros r [<-|[<-|[]]]; discriminate. }
  split; [vm_compute; reflexivity|]. split; [exact Hst|].
  apply (filter_results_other_state example_world 1%positive
           (example_results no_geometry no_geometry));
    [vm_compute; reflexivity | exact Hst].
Defined.

Lemma get_color_for_time_ends_witness :
  (0 < 30)%Q /\ (30 == 30)%Q /\ (0 == 0)%Q
  /\ get_color_for_time 30 30 = Return "#ff0000"
  /\ get_color_for_time 0 30 = Return "#00ff00".
Proof.
  split; [reflexivity|]. split; [reflexivity|]. split; [reflexivity|].
  split.
  - apply (proj1 (get_color_for_time_ends 30 30 eq_refl)). reflexivity.
  - apply (proj2 (get_color_for_time_ends 0 30 eq_refl)). reflexivity.
Defined.

Lemma example_max_nonzero :
  ~ (series_max (map driving_time_minutes
                   (example_results no_geometry no_geometry)) == 0)%Q.
Proof. discriminate. Qed.

Lemma example_nonnegative :
  Forall (fun r => (0 <= driving_time_minutes r)%Q)
    (example_results no_geometry no_geometry).
Proof. repeat constructor; discriminate. Qed.

Lemma create_map_regions_witness :
  frames example_world !! 1%positive
    = Some (example_results no_geometry no_geometry)
  /\ example_results no_geometry no_geometry <> []
  /\ Forall (fun r => (0 <= driving_time_minutes r)%Q)
       (example_results no_geometry no_geometry)
  /\ ~ (series_max (map driving_time_minutes
                      (example_results no_geometry no_geometry)) == 0)%Q
  /\ exists w' m,
       create_map (VRef 1%positive) ((389 # 10)%Q, (-771 # 10)%Q)
         example_world = (Return map_filename, w')
       /\ files w' !! map_filename = Some (HtmlMap m)
       /\ map_location m = ((389 # 10)%Q, (-771 # 10)%Q)
       /\ markers m = [origin_marker ((389 # 10)%Q, (-771 # 10)%Q)]
       /\ length (overlays m)
          = length (example_results no_geometry no_geometry)
       /\ map gj_geometry (overlays m)
          = map geometry (example_results no_geometry no_geometry)
       /\ map gj_tooltip (overlays m)
          = map (fun r => (zip_code r, driving_time_minutes r))
              (example_results no_geometry no_geometry)
       /\ (forall name, name <> map_filename ->
                        files w' !! name = files example_world !! name)
       /\ (forall k v, frames example_world !! k = Some v ->
                       frames w' !! k = Some v).
Proof.
  split; [vm_compute; reflexivity|]. split; [discriminate|].
  split; [exact example_nonnegative|].
  split; [exact example_max_nonzero|].
  apply (create_map_regions example_world 1%positive
           (example_results no_geometry no_geometry));
    [vm_compute; reflexivity | discriminate | exact example_nonnegative
    | exact example_max_nonzero].
Defined.

Lemma create_map_colours_witness :
  frames example_world !! 1%positive
    = Some (example_results no_geometry no_geometry)
  /\ example_results no_geometry no_geometry <> []
  /\ Forall (fun r => (0 <= driving_time_minutes r)%Q)
       (example_results no_geometry no_geometry)
  /\ ~ (series_max (map driving_time_minutes
                      (example_results no_geometry no_geometry)) == 0)%Q
  /\ exists w' m,
       create_map (VRef 1%positive) ((389 # 10)%Q, (-771 # 10)%Q)
         example_world = (Return map_filename, w')
       /\ files w' !! map_filename = Some (HtmlMap m)
       /\ Forall2
            (fun row g =>
               ((driving_time_minutes row
                 == series_max (map driving_time_minutes
                                  (example_results no_geometry no_geometry)))%Q
                -> gj_fillColor g = "#ff0000")
               /\ ((driving_time_minutes row == 0)%Q ->
                   gj_fillColor g = "#00ff00"))
            (example_results no_geometry no_geometry) (overlays m)
       /\ Exists (fun g => gj_fillColor g = "#ff0000") (overlays m).
Proof.
  split; [vm_compute; reflexivity|]. split; [discriminate|].
  split; [exact example_nonnegative|].
  split; [exact example_max_nonzero|].
  apply (create_map_colours example_world 1%positive
           (example_results no_geometry no_geometry));
    [vm_compute; reflexivity | discriminate | exact example_nonnegative
    | exact example_max_nonzero].
Defined.

Lemma export_results_effects_witness :
  frames example_world !! 1%positive
    = Some (example_results no_geometry no_geometry)
  /\ let w' := snd (export_results (VRef 1%positive) default_csv
                      example_world) in
     frames w' !! 1%positive = Some (example_results no_geometry no_geometry)
     /\ (forall k v, frames example_world !! k = Some v ->
                     frames w' !! k = Some v)
     /\ (forall name, name <> default_csv ->
                      files w' !! name = files example_world !! name)
     /\ console w' = console example_world /\ self w' = self example_world.
Proof.
  split; [vm_compute; reflexivity|].
  apply (export_results_effects example_world 1%positive
           (example_results no_geometry no_geometry)).
  vm_compute; reflexivity.
Defined.

Lemma finish_run_report_witness :
  let kept := List.filter (keeps (inject_Z 30) false
                             (origin_state (self example_world)))
                (example_results no_geometry no_geometry) in
  frames example_world !! 1%positive
    = Some (example_results no_geometry no_geometry)
  /\ Forall (fun r => (0 <= driving_time_minutes r)%Q) kept
  /\ (kept = [] \/ ~ (series_max (map driving_time_minutes kept) == 0)%Q)
  /\ exists w' l' m,
       finish_run (VRef 1%positive) ((389 # 10)%Q, (-771 # 10)%Q) 30 false
         example_world
         = (Return "Analysis complete. Found 1 zip codes within 30 minutes.",
            w')
       /\ calc_results (self w') = VRef l'
       /\ frames w' !! l' = Some kept
       /\ frames w' !! 1%positive
          = Some (example_results no_geometry no_geometry)
       /\ files w' !! map_filename = Some (HtmlMap m)
       /\ markers m = [origin_marker ((389 # 10)%Q, (-771 # 10)%Q)]
       /\ map gj_geometry (overlays m) = map geometry kept
       /\ files w' !! default_csv
          = (if kept is [] then files example_world !! default_csv
             else Some (CsvFile (exported_table kept)))
       /\ (forall name, name <> map_filename -> name <> default_csv ->
                        files w' !! name = files example_world !! name).
Proof.
  intros kept.
  assert (Hpos : Forall (fun r => (0 <= driving_time_minutes r)%Q) kept)
    by (repeat constructor; discriminate).
  assert (Hok : kept = []
                \/ ~ (series_max (map driving_time_minutes kept) == 0)%Q)
    by (right; discriminate).
  split; [vm_compute; reflexivity|]. split; [exact Hpos|].
  split; [exact Hok|].
  apply (finish_run_report example_world 1%positive
           (example_results no_geometry no_geometry)
           ((389 # 10)%Q, (-771 # 10)%Q) 30 false);
    [vm_compute; reflexivity | exact Hpos | exact Hok].
Defined.

Lemma load_data_outcomes_witness :
  files empty_world !! dataset_filename = None
  /\ fst (load_data (fun _ => Return [arlington]) empty_world) = Return false
  /\ self (snd (load_data (fun _ => Return [arlington]) empty_world))
     = self empty_world
  /\ (exists content,
        files dataset_world !! dataset_filename = Some content
        /\ fst (load_data (fun _ => Return [arlington]) dataset_world)
           = Return true
        /\ zip_gdf (self (snd (load_data (fun _ => Return [arlington])
                                 dataset_world)))
           = Some [arlington])
  /\ (exists content,
        files dataset_world !! dataset_filename = Some content
        /\ fst (load_data (fun _ => Raise KeyError) dataset_world)
           = Raise KeyError
        /\ self (snd (load_data (fun _ => Raise KeyError) dataset_world))
           = self dataset_world).
Proof.
  pose proof (load_data_outcomes (fun _ => Return [arlington]) empty_world)
    as (_ & _ & Hmissing & _).
  pose proof (load_data_outcomes (fun _ => Return [arlington]) dataset_world)
    as (_ & _ & _ & Hread & _).
  pose proof (load_data_outcomes (fun _ => Raise KeyError) dataset_world)
    as (_ & _ & _ & _ & Hraise).
  split; [vm_compute; reflexivity|].
  destruct (Hmissing ltac:(vm_compute; reflexivity)) as (H1 & H2 & _).
  split; [exact H1|]. split; [exact H2|]. split.
  - eexists. split; [vm_compute; reflexivity|].
    destruct (Hread _ [arlington] ltac:(vm_compute; reflexivity) eq_refl)
      as (H3 & H4 & _).
    split; [exact H3 | exact H4].
  - eexists. split; [vm_compute; reflexivity|].
    apply (Hraise _ KeyError ltac:(vm_compute; reflexivity) eq_refl).
Defined.


Lemma app_calculate_stuck_witness :
  api_key_var ready_form <> "" /\ address_var ready_form <> ""
  /\ zip_gdf (self loaded_world) = Some [arlington]
  /\ (forall url : string, geo_status ((fun _ => one_candidate) url) = "OK")
  /\ exists w',
       app_calculate (fun _ => one_candidate) (fun _ => one_duration)
         (fun _ gdf => gdf) (ready_form, loaded_world)
       = (Return tt,
          (with_status "Calculating..." (with_progress true ready_form), w'))
       /\ files w' = files loaded_world /\ frames w' = frames loaded_world
       /\ calc_results (self w') = calc_results (self loaded_world).
Proof.
  split; [discriminate|]. split; [discriminate|]. split; [reflexivity|].
  split; [intros url; reflexivity|].
  apply (app_calculate_stuck (fun _ => one_candidate)
           (fun _ => one_duration) (fun _ gdf => gdf) ready_form loaded_world
           [arlington]);
    [discriminate | discriminate | reflexivity | intros url; reflexivity].
Defined.

Lemma app_load_data_outcomes_witness :
  files empty_world !! dataset_filename = None
  /\ status_var (fst (snd (app_load_data (fun _ => Return [arlington])
                             (ready_form, empty_world))))
     = "Failed to load data. Please check the console for instructions."
  /\ (exists content,
        files dataset_world !! dataset_filename = Some content
        /\ status_var (fst (snd (app_load_data (fun _ => Return [arlington])
                                   (ready_form, dataset_world))))
           = "Data loaded successfully")
  /\ (exists content,
        files dataset_world !! dataset_filename = Some content
        /\ progress_running
             (fst (snd (app_load_data (fun _ => Raise KeyError)
                          (ready_form, dataset_world))))
           = true).
Proof.
  pose proof (app_load_data_outcomes (fun _ => Return [arlington])
                ready_form empty_world) as (_ & _ & _ & Hmissing & _).
  pose proof (app_load_data_outcomes (fun _ => Return [arlington])
                ready_form dataset_world) as (_ & _ & _ & _ & Hread & _).
  pose proof (app_load_data_outcomes (fun _ => Raise KeyError)
                ready_form dataset_world) as (_ & _ & _ & _ & _ & Hraise).
  split; [vm_compute; reflexivity|].
  split; [apply Hmissing; vm_compute; reflexivity|]. split.
  - eexists. split; [vm_compute; reflexivity|].
    apply (Hread _ [arlington] ltac:(vm_compute; reflexivity) eq_refl).
  - eexists. split; [vm_compute; reflexivity|].
    apply (Hraise _ KeyError ltac:(vm_compute; reflexivity) eq_refl).
Defined.

